(** * Zoning dataset preparation: merge of the COCO and Label Studio exports

    A shallow embedding of [prepare_ml_training_dataset_fixed.py]:
    the loader, the per-page value index, the fusion of the two exports and
    the seeded train/validation split, followed by the properties of the
    pipeline that the design document states.

    Conventions of the embedding.
    - A Python dict with a fixed set of keys is a record; a dict used as a
      table is a [gmap]; the set [zones_found] is a [gset string].
    - [d.get(k)] on a key that may be missing is an [option] field; JSON
      [null] and a missing key are both [None] (the source only ever tests
      such values for truthiness or passes them on).
    - JSON numbers are integers ([Z]); Python truthiness of a number is
      "different from zero", of a string or list "not empty".
    - Exceptions are values of [pyerr]; code that can raise returns
      [pyerr + A].
    - [print] calls are omitted, except that the dict accesses inside their
      arguments are kept, because they can raise. *)

From Stdlib Require Import ZArith Lia Ascii String SpecFloat.
From stdpp Require Import gmap strings list fin_maps pretty.

Local Open Scope string_scope.
Local Open Scope list_scope.
Local Open Scope nat_scope.

(** ** Python exceptions and the error monad *)

Inductive pyerr : Type :=
  | FileNotFoundError (path : string)
  | JSONDecodeError (path : string)
  | KeyError_str (key : string)
  | KeyError_int (key : Z)
  | IndexError.

Definition result (A : Type) : Type := pyerr + A.

Definition ok {A} (a : A) : result A := inr a.
Definition raise {A} (e : pyerr) : result A := inl e.

#[global] Instance result_ret : MRet result := λ A a, inr a.

#[global] Instance result_bind : MBind result := λ A B k m,
  match m with
  | inl e => inl e
  | inr a => k a
  end.

(** [d[k]] on a table: raises [KeyError] when the key is missing. *)
Definition getitem_int {A} (d : gmap Z A) (k : Z) : result A :=
  match d !! k with
  | Some a => ok a
  | None => raise (KeyError_int k)
  end.

(** [d[k]] on a dict with an optional top-level key. *)
Definition getitem_key {A} (field : option A) (k : string) : result A :=
  match field with
  | Some a => ok a
  | None => raise (KeyError_str k)
  end.

(** [l[i]] on a list. *)
Definition getitem_list {A} (l : list A) (i : nat) : result A :=
  match l !! i with
  | Some a => ok a
  | None => raise IndexError
  end.

(** ** Python strings *)

(** Truthiness of a string. *)
Definition str_truthy (s : string) : bool :=
  match s with
  | EmptyString => false
  | String _ _ => true
  end.

(** [a or b] on strings. *)
Definition str_or (a b : string) : string :=
  if str_truthy a then a else b.

(** [s.split('/')[-1]]: what follows the last slash, the whole string when
    there is none. [acc] is the component read so far. *)
Fixpoint last_component (acc : string) (s : string) : string :=
  match s with
  | EmptyString => acc
  | String c rest =>
      if Ascii.eqb c "/"%char then last_component EmptyString rest
      else last_component (acc +:+ String c EmptyString) rest
  end.

Definition split_slash_last (s : string) : string :=
  last_component EmptyString s.

(** [sub in s]: substring test. *)
Fixpoint str_contains (sub s : string) : bool :=
  String.prefix sub s ||
  match s with
  | EmptyString => false
  | String _ rest => str_contains sub rest
  end.

(** ** The value export (Label Studio) *)

(** The [value] dict of a result record. Every key is read with [.get]. *)
Record ls_value : Type := mk_ls_value {
  v_rectanglelabels : option (list string);
  v_x : option Z;
  v_y : option Z;
  v_width : option Z;
  v_height : option Z;
  v_original_width : option Z;
  v_original_height : option Z;
  v_number : option Z;
  v_text : option (list string);
  v_choices : option (list string)
}.

(** [{}], the default of [result.get('value', {})]. *)
Definition empty_value : ls_value :=
  mk_ls_value None None None None None None None None None None.

Record ls_result : Type := mk_ls_result {
  r_type : option string;
  r_from_name : option string;
  r_value : option ls_value
}.

(** One entry of [task['annotations']]; [a_result] is
    [annotation.get('result', [])]. *)
Record ls_annotation : Type := mk_ls_annotation {
  a_result : option (list ls_result)
}.

(** A task of the value export. [t_data_image] is
    [task.get('data', {}).get('image')]. *)
Record ls_task : Type := mk_ls_task {
  t_file_upload : option string;
  t_data_image : option string;
  t_annotations : option (list ls_annotation)
}.

(** ** The per-page value index *)

Record rect_data : Type := mk_rect_data {
  rd_labels : list string;
  rd_x : Z;
  rd_y : Z;
  rd_width : Z;
  rd_height : Z;
  rd_original_width : Z;
  rd_original_height : Z
}.

Record value_entry : Type := mk_value_entry {
  ve_number : option Z;
  ve_x : Z;
  ve_y : Z
}.

Record zone_entry : Type := mk_zone_entry {
  ze_text : string;
  ze_x : Z;
  ze_y : Z
}.

Record unit_entry : Type := mk_unit_entry {
  ue_unit : string;
  ue_x : Z;
  ue_y : Z
}.

Record page_values : Type := mk_page_values {
  pv_filename : string;
  pv_rectangles : list rect_data;
  pv_normalized_values : list value_entry;
  pv_zone_codes : list zone_entry;
  pv_units : list unit_entry;
  pv_qualifiers : list ls_result;
  pv_notes : list ls_result;
  pv_all_results : list ls_result
}.

Definition new_page_values (filename : string) : page_values :=
  mk_page_values filename [] [] [] [] [] [] [].

(** [{}], the default of [values_by_page.get(filename, {})]: every
    [page_values.get(key)] on it is [None], which the source only tests for
    truthiness, exactly like an empty list. *)
Definition no_page_values : page_values := new_page_values "".

Definition opt_str_is (o : option string) (s : string) : bool :=
  match o with
  | Some s' => String.eqb s' s
  | None => false
  end.

(** The body of [for result in results], on one result record. *)
Definition index_result (pv : page_values) (r : ls_result) : page_values :=
  let pv := mk_page_values (pv_filename pv) (pv_rectangles pv)
              (pv_normalized_values pv) (pv_zone_codes pv) (pv_units pv)
              (pv_qualifiers pv) (pv_notes pv) (pv_all_results pv ++ [r]) in
  let value := default empty_value (r_value r) in
  if opt_str_is (r_type r) "rectanglelabels" then
    let rect := mk_rect_data
                  (default [] (v_rectanglelabels value))
                  (default 0%Z (v_x value))
                  (default 0%Z (v_y value))
                  (default 0%Z (v_width value))
                  (default 0%Z (v_height value))
                  (default 2550%Z (v_original_width value))
                  (default 1650%Z (v_original_height value)) in
    mk_page_values (pv_filename pv) (pv_rectangles pv ++ [rect])
      (pv_normalized_values pv) (pv_zone_codes pv) (pv_units pv)
      (pv_qualifiers pv) (pv_notes pv) (pv_all_results pv)
  else if opt_str_is (r_from_name r) "normalized_value" then
    let entry := mk_value_entry (v_number value)
                   (default 0%Z (v_x value)) (default 0%Z (v_y value)) in
    mk_page_values (pv_filename pv) (pv_rectangles pv)
      (pv_normalized_values pv ++ [entry]) (pv_zone_codes pv) (pv_units pv)
      (pv_qualifiers pv) (pv_notes pv) (pv_all_results pv)
  else if opt_str_is (r_from_name r) "zone_code_text" then
    let text := match v_text value with
                | Some (t :: _) => t
                | _ => ""
                end in
    if str_truthy text then
      let entry := mk_zone_entry text
                     (default 0%Z (v_x value)) (default 0%Z (v_y value)) in
      mk_page_values (pv_filename pv) (pv_rectangles pv)
        (pv_normalized_values pv) (pv_zone_codes pv ++ [entry]) (pv_units pv)
        (pv_qualifiers pv) (pv_notes pv) (pv_all_results pv)
    else pv
  else if opt_str_is (r_from_name r) "unit" then
    match default [] (v_choices value) with
    | c :: _ =>
        let entry := mk_unit_entry c
                       (default 0%Z (v_x value)) (default 0%Z (v_y value)) in
        mk_page_values (pv_filename pv) (pv_rectangles pv)
          (pv_normalized_values pv) (pv_zone_codes pv) (pv_units pv ++ [entry])
          (pv_qualifiers pv) (pv_notes pv) (pv_all_results pv)
    | [] => pv
    end
  else pv.

(** [for annotation in task['annotations']: for result in ...]. *)
Definition index_annotation (pv : page_values) (a : ls_annotation)
    : page_values :=
  foldl index_result pv (default [] (a_result a)).

(** The page key and the page record of one task. *)
Definition task_filename (task : ls_task) : string :=
  str_or (default "" (t_file_upload task)) (default "" (t_data_image task)).

Definition task_page_key (task_idx : nat) (task : ls_task) : string :=
  let filename := task_filename task in
  if str_truthy filename then split_slash_last filename
  else "page_" +:+ pretty task_idx.

Definition index_task (task : ls_task) : page_values :=
  foldl index_annotation (new_page_values (task_filename task))
        (default [] (t_annotations task)).

(** [for task_idx, task in enumerate(label_studio_data)], from index
    [task_idx] on. *)
Fixpoint extract_from (task_idx : nat) (tasks : list ls_task)
    (values_by_page : gmap string page_values) : gmap string page_values :=
  match tasks with
  | [] => values_by_page
  | task :: rest =>
      extract_from (S task_idx) rest
        (<[task_page_key task_idx task := index_task task]> values_by_page)
  end.

Definition extract_all_label_studio_values (label_studio_data : list ls_task)
    : gmap string page_values :=
  extract_from 0 label_studio_data ∅.

(** ** The structural export (COCO) *)

Record coco_image : Type := mk_coco_image {
  img_id : Z;
  img_file_name : string
}.

Record coco_category : Type := mk_coco_category {
  cat_id : Z;
  cat_name : string
}.

(** [an_bbox] is the COCO box [[x, y, width, height]]; the export is not
    validated, so the list can be shorter. *)
Record coco_annotation : Type := mk_coco_annotation {
  an_id : Z;
  an_image_id : Z;
  an_category_id : Z;
  an_bbox : list Z
}.

(** The parsed structural export; a top-level key can be missing. *)
Record coco_export : Type := mk_coco_export {
  coco_images : option (list coco_image);
  coco_categories : option (list coco_category);
  coco_annotations : option (list coco_annotation)
}.

(** ** Fused annotations *)

(** The dict [merged_anno]. *)
Record merged_anno : Type := mk_merged_anno {
  ma_id : Z;
  ma_image_id : Z;
  ma_image_filename : string;
  ma_category : string;
  ma_bbox : list Z;
  ma_bbox_area : Z;
  ma_normalized_value : option Z;
  ma_unit : option string;
  ma_zone_code : option string;
  ma_has_values : bool
}.

Definition set_zone_code (m : merged_anno) (z : string) : merged_anno :=
  mk_merged_anno (ma_id m) (ma_image_id m) (ma_image_filename m)
    (ma_category m) (ma_bbox m) (ma_bbox_area m) (ma_normalized_value m)
    (ma_unit m) (Some z) (ma_has_values m).

Definition set_normalized_value (m : merged_anno) (v : option Z)
    : merged_anno :=
  mk_merged_anno (ma_id m) (ma_image_id m) (ma_image_filename m)
    (ma_category m) (ma_bbox m) (ma_bbox_area m) v
    (ma_unit m) (ma_zone_code m) (ma_has_values m).

Definition set_unit (m : merged_anno) (u : string) : merged_anno :=
  mk_merged_anno (ma_id m) (ma_image_id m) (ma_image_filename m)
    (ma_category m) (ma_bbox m) (ma_bbox_area m) (ma_normalized_value m)
    (Some u) (ma_zone_code m) (ma_has_values m).

Definition set_has_values (m : merged_anno) : merged_anno :=
  mk_merged_anno (ma_id m) (ma_image_id m) (ma_image_filename m)
    (ma_category m) (ma_bbox m) (ma_bbox_area m) (ma_normalized_value m)
    (ma_unit m) (ma_zone_code m) true.

(** ** Fusion: [merge_with_coco] *)

Definition numeric_categories : list string :=
  ["MIN_LOT_AREA"; "MIN_LOT_WIDTH"; "FRONT_YARD"; "SIDE_YARD";
   "REAR_YARD"; "MAX_HEIGHT_FT"; "MAX_LOT_COVERAGE"].

Definition is_numeric_category (category_name : string) : bool :=
  bool_decide (category_name ∈ numeric_categories).

(** [for zone in page_values['zone_codes']: if zone['text'] not in
    zones_found: ...; break]: the text the loop stops at, if any. *)
Fixpoint first_new_zone (zones_found : gset string)
    (zone_codes : list zone_entry) : option string :=
  match zone_codes with
  | [] => None
  | zone :: rest =>
      if decide (ze_text zone ∈ zones_found)
      then first_new_zone zones_found rest
      else Some (ze_text zone)
  end.

(** The [ZONE_CODE] branch: the annotation and the registry after it. *)
Definition assign_zone (page : page_values) (zones_found : gset string)
    (m : merged_anno) : merged_anno * gset string :=
  match first_new_zone zones_found (pv_zone_codes page) with
  | Some text =>
      (set_has_values (set_zone_code m text), {[text]} ∪ zones_found)
  | None => (m, zones_found)
  end.

(** The numeric branch, first half; [k] is [len(merged_annotations)]. *)
Definition assign_value (page : page_values) (k : nat) (m : merged_anno)
    : merged_anno :=
  let values := pv_normalized_values page in
  match values with
  | [] => m
  | _ :: _ =>
      if decide (k < length values) then
        let value_idx := k `mod` length values in
        match values !! value_idx with
        | Some entry =>
            set_has_values (set_normalized_value m (ve_number entry))
        | None => m (* not reached: value_idx < length values *)
        end
      else m
  end.

(** The numeric branch, second half: the unit inferred from the name. *)
Definition assign_unit (page : page_values) (category_name : string)
    (m : merged_anno) : merged_anno :=
  match pv_units page with
  | [] => m
  | _ :: _ =>
      if str_contains "LOT_AREA" category_name
         || str_contains "FLOOR_AREA" category_name
      then set_unit m "sqft"
      else if str_contains "HEIGHT_FT" category_name
              || str_contains "YARD" category_name
              || str_contains "WIDTH" category_name
      then set_unit m "ft"
      else if str_contains "COVERAGE" category_name
      then set_unit m "percent"
      else m
  end.

(** The category dispatch on the base annotation. *)
Definition dispatch (page : page_values) (category_name : string)
    (k : nat) (zones_found : gset string) (m : merged_anno)
    : merged_anno * gset string :=
  if String.eqb category_name "ZONE_CODE" then
    assign_zone page zones_found m
  else if is_numeric_category category_name then
    (assign_unit page category_name (assign_value page k m), zones_found)
  else (m, zones_found).

(** The two tables built before the loop and the value index. *)
Record merge_env : Type := mk_merge_env {
  image_id_to_filename : gmap Z string;
  category_id_to_name : gmap Z string;
  values_by_page : gmap string page_values
}.

(** The loop state: [merged_annotations] and [zones_found]. *)
Definition merge_state : Type := list merged_anno * gset string.

(** The page record an annotation is matched with. *)
Definition page_of (env : merge_env) (anno : coco_annotation) : page_values :=
  let filename := default "" (image_id_to_filename env !! an_image_id anno) in
  default no_page_values (values_by_page env !! filename).

(** The base annotation, before the category dispatch. *)
Definition base_anno (env : merge_env) (anno : coco_annotation)
    (category_name : string) (w h : Z) : merged_anno :=
  mk_merged_anno (an_id anno) (an_image_id anno)
    (default "" (image_id_to_filename env !! an_image_id anno))
    category_name (an_bbox anno) (w * h)%Z None None None false.

(** The body of [for anno in coco_data['annotations']]. *)
Definition merge_step (env : merge_env) (st : merge_state)
    (anno : coco_annotation) : result merge_state :=
  let '(merged_annotations, zones_found) := st in
  category_name ← getitem_int (category_id_to_name env) (an_category_id anno);
  let page_values := page_of env anno in
  w ← getitem_list (an_bbox anno) 2;
  h ← getitem_list (an_bbox anno) 3;
  let merged_anno := base_anno env anno category_name w h in
  let '(merged_anno, zones_found) :=
    dispatch page_values category_name (length merged_annotations)
      zones_found merged_anno in
  ok (merged_annotations ++ [merged_anno], zones_found).
Arguments merge_step : simpl never.

Fixpoint merge_loop (env : merge_env) (annos : list coco_annotation)
    (st : merge_state) : result merge_state :=
  match annos with
  | [] => ok st
  | anno :: rest =>
      st' ← merge_step env st anno;
      merge_loop env rest st'
  end.

Definition build_image_table (images : list coco_image) : gmap Z string :=
  foldl (λ d img, <[img_id img := split_slash_last (img_file_name img)]> d)
        ∅ images.

Definition build_category_table (categories : list coco_category)
    : gmap Z string :=
  foldl (λ d cat, <[cat_id cat := cat_name cat]> d) ∅ categories.

Definition merge_with_coco (coco_data : coco_export)
    (vbp : gmap string page_values) : result (list merged_anno) :=
  images ← getitem_key (coco_images coco_data) "images";
  categories ← getitem_key (coco_categories coco_data) "categories";
  let env := mk_merge_env (build_image_table images)
               (build_category_table categories) vbp in
  annotations ← getitem_key (coco_annotations coco_data) "annotations";
  st ← merge_loop env annotations ([], ∅);
  ok st.1.

(** ** The random generator of [np.random] *)

(** numpy's legacy generator is outside the repository. It is taken as an
    interface: a state, [np.random.seed], and [random_interval], which draws
    an integer of the closed interval [[0, max]] and advances the state. *)
Class BitGenerator : Type := {
  bitgen : Type;
  bitgen_seed : Z → bitgen;
  random_interval : bitgen → nat → nat * bitgen;
  random_interval_le : ∀ g max, (random_interval g max).1 ≤ max
}.

(** A small linear congruential generator, as a concrete instance. *)
Definition lcg_next (g : Z) : Z := ((g * 1103515245 + 12345) `mod` 2147483648)%Z.

Definition lcg_interval (g : Z) (max : nat) : nat * Z :=
  let g' := lcg_next g in
  (Z.to_nat (g' `mod` Z.of_nat (S max)), g').

Lemma lcg_interval_le g max : (lcg_interval g max).1 ≤ max.
Proof.
  unfold lcg_interval. simpl fst.
  pose proof (Z.mod_pos_bound (lcg_next g) (Z.of_nat (S max))). lia.
Qed.

Definition lcg_bitgen : BitGenerator :=
  {| bitgen := Z;
     bitgen_seed := λ s, s;
     random_interval := lcg_interval;
     random_interval_le := lcg_interval_le |}.

(** ** [int(n * 0.8)] in double precision *)

(** The double nearest to 0.8 is [float_08_mant / 2^52]. *)
Definition float_08_mant : Z := 3602879701896397.

(** [p / 2^s] rounded to the nearest integer, ties to even. *)
Definition round_half_even (p s : Z) : Z :=
  let q := (p / 2 ^ s)%Z in
  let r := (p `mod` 2 ^ s)%Z in
  if (2 * r <? 2 ^ s)%Z then q
  else if (2 ^ s <? 2 * r)%Z then (q + 1)%Z
  else if Z.even q then q else (q + 1)%Z.

(** [int(n * 0.8)] for an integer [0 <= n < 2^53] (which converts to a
    double exactly): the exact product is [p / 2^52]; it is rounded to 53
    significant bits, dropping [s] bits, and [int] truncates the result. *)
Definition int_mul_08 (n : Z) : Z :=
  let p := (n * float_08_mant)%Z in
  let s := (Z.log2 p - 52)%Z in
  if (s <=? 0)%Z then (p / 2 ^ 52)%Z
  else (round_half_even p s * 2 ^ s / 2 ^ 52)%Z.

(** [int(len(tier) * 0.8)]. *)
Definition split_index (len : nat) : nat :=
  Z.to_nat (int_mul_08 (Z.of_nat len)).

(** The same product through the IEEE 754 multiplication of the standard
    library's specification of binary64, to test [int_mul_08] against. *)
Definition sf_of_Z (n : Z) : spec_float :=
  match n with
  | Zpos p => S754_finite false p 0
  | Zneg p => S754_finite true p 0
  | Z0 => S754_zero false
  end.

Definition sf_trunc (f : spec_float) : Z :=
  match f with
  | S754_finite s m e =>
      let a := if (0 <=? e)%Z then (Zpos m * 2 ^ e)%Z
               else (Zpos m / 2 ^ (- e))%Z in
      if s then (- a)%Z else a
  | _ => 0%Z
  end.

Definition ieee_int_mul_08 (n : Z) : Z :=
  sf_trunc (SFmul 53 1024 (sf_of_Z n)
              (S754_finite false 3602879701896397 (-52))).

(** [int_mul_08] and [ieee_int_mul_08] agree on [count] integers from
    [n] on. *)
Fixpoint agree_from (count : nat) (n : Z) : bool :=
  match count with
  | 0 => true
  | S count' =>
      (int_mul_08 n =? ieee_int_mul_08 n)%Z && agree_from count' (n + 1)%Z
  end.

(** ** The dataset builder: [create_training_dataset] *)

(** [if anno['zone_code'] or anno['normalized_value']]. *)
Definition opt_str_truthy (o : option string) : bool :=
  match o with
  | Some s => str_truthy s
  | None => false
  end.

Definition opt_num_truthy (o : option Z) : bool :=
  match o with
  | Some n => negb (n =? 0)%Z
  | None => false
  end.

Definition is_high_quality (anno : merged_anno) : bool :=
  opt_str_truthy (ma_zone_code anno) || opt_num_truthy (ma_normalized_value anno).

(** The metadata dict; [categories] is [list(set(...))], whose order Python
    does not fix, so it is kept as the set. *)
Record metadata : Type := mk_metadata {
  total_annotations : nat;
  with_values : nat;
  categories : gset string
}.

(** The dict [create_training_dataset] returns: its four lists are
    references to list objects of the heap. *)
Record dataset : Type := mk_dataset {
  train : nat;
  validation : nat;
  high_quality : nat;
  medium_quality : nat;
  dataset_metadata : metadata
}.

(** What [json.dump(dataset)] writes. *)
Record dataset_json : Type := mk_dataset_json {
  json_train : list merged_anno;
  json_validation : list merged_anno;
  json_high_quality : list merged_anno;
  json_medium_quality : list merged_anno;
  json_metadata : metadata
}.

(** [x[i], x[j] = x[j], x[i]]. *)
Definition swap {A} (x : list A) (i j : nat) : list A :=
  match x !! j, x !! i with
  | Some xj, Some xi => <[j := xi]> (<[i := xj]> x)
  | _, _ => x (* not reached by [shuffle]: both indices are in range *)
  end.

Section Builder.
Context {BG : BitGenerator}.

(** [np.random.shuffle(x)] on a Python list:
    [for i in reversed(range(1, n)): j = random_interval(i); swap].
    [shuffle_from i] runs the iterations [i, i-1, ..., 1]. *)
Fixpoint shuffle_from {A} (i : nat) (g : bitgen) (x : list A)
    : list A * bitgen :=
  match i with
  | 0 => (x, g)
  | S i' =>
      let '(j, g') := random_interval g i in
      shuffle_from i' g' (swap x i j)
  end.

Definition shuffle {A} (g : bitgen) (x : list A) : list A * bitgen :=
  shuffle_from (length x - 1) g x.

(** The same loop with Python's bounds check on [x[i]] and [x[j]]:
    [None] stands for [IndexError]. *)
Definition swap_checked {A} (x : list A) (i j : nat) : option (list A) :=
  xj ← x !! j; xi ← x !! i; Some (<[j := xi]> (<[i := xj]> x)).

Fixpoint shuffle_from_checked {A} (i : nat) (g : bitgen) (x : list A)
    : option (list A * bitgen) :=
  match i with
  | 0 => Some (x, g)
  | S i' =>
      let '(j, g') := random_interval g i in
      x' ← swap_checked x i j; shuffle_from_checked i' g' x'
  end.

Definition shuffle_checked {A} (g : bitgen) (x : list A)
    : option (list A * bitgen) :=
  shuffle_from_checked (length x - 1) g x.

(** The interpreter state the builder touches: the global generator of
    [np.random] and the heap of list objects. A reference is an index of
    the heap. *)
Record pystate : Type := mk_pystate {
  np_random : bitgen;
  heap : list (list merged_anno)
}.

Definition py (A : Type) : Type := pystate → A * pystate.

#[global] Instance py_ret : MRet py := λ A a st, (a, st).

#[global] Instance py_bind : MBind py := λ A B k m st,
  let '(a, st') := m st in k a st'.

(** The list object behind a reference. *)
Definition deref (st : pystate) (x : nat) : list merged_anno :=
  default [] (heap st !! x).

(** [x = list(...)]: a new list object. *)
Definition new_list (l : list merged_anno) : py nat := λ st,
  (length (heap st), mk_pystate (np_random st) (heap st ++ [l])).

Definition read_list (x : nat) : py (list merged_anno) := λ st,
  (deref st x, st).

(** [x.append(a)]. *)
Definition list_append (x : nat) (a : merged_anno) : py unit := λ st,
  (tt, mk_pystate (np_random st) (<[x := deref st x ++ [a]]> (heap st))).

(** [np.random.seed(s)]. *)
Definition np_random_seed (s : Z) : py unit := λ st,
  (tt, mk_pystate (bitgen_seed s) (heap st)).

(** [np.random.shuffle(x)]: in place, on the global generator. *)
Definition np_random_shuffle (x : nat) : py unit := λ st,
  let '(l, g) := shuffle (np_random st) (deref st x) in
  (tt, mk_pystate g (<[x := l]> (heap st))).

(** [for a in l: body(a)]. *)
Fixpoint for_each {A} (body : A → py unit) (l : list A) : py unit :=
  match l with
  | [] => mret tt
  | a :: rest => body a ;; for_each body rest
  end.

Definition create_training_dataset (merged_annotations : list merged_anno)
    : py dataset :=
  high_quality ← new_list [];
  medium_quality ← new_list [];
  for_each (λ anno,
      if is_high_quality anno then list_append high_quality anno
      else list_append medium_quality anno)
    merged_annotations ;;
  np_random_seed 42 ;;
  np_random_shuffle high_quality ;;
  np_random_shuffle medium_quality ;;
  hq ← read_list high_quality;
  mq ← read_list medium_quality;
  let hq_split := split_index (length hq) in
  let mq_split := split_index (length mq) in
  train_set ← new_list (take hq_split hq ++ take mq_split mq);
  val_set ← new_list (drop hq_split hq ++ drop mq_split mq);
  np_random_shuffle train_set ;;
  np_random_shuffle val_set ;;
  hq ← read_list high_quality;
  mret (mk_dataset train_set val_set high_quality medium_quality
          (mk_metadata (length merged_annotations) (length hq)
             (list_to_set (ma_category <$> merged_annotations)))).

(** [json.dump(dataset, f)]: the lists behind the references, at the
    time of the dump. *)
Definition json_dump (st : pystate) (d : dataset) : dataset_json :=
  mk_dataset_json (deref st (train d)) (deref st (validation d))
    (deref st (high_quality d)) (deref st (medium_quality d))
    (dataset_metadata d).
End Builder.

(** ** The loader, the writer and the pipeline *)

Definition coco_path : string := "Zoning-Labels-COCO.json".
Definition label_studio_path : string := "zoning-labels-32pages-full-new.json".

(** A file of the working directory, as [open] and [json.load] see it. *)
Inductive file (A : Type) : Type :=
  | Missing
  | NotJson
  | Json (doc : A).
Arguments Missing {A}.
Arguments NotJson {A}.
Arguments Json {A} doc.

(** The three files the program names; [output_file] is
    [ml_training_dataset.json]. *)
Record filesystem : Type := mk_filesystem {
  coco_file : file coco_export;
  label_studio_file : file (list ls_task);
  output_file : option dataset_json
}.

(** [with open(path) as f: json.load(f)]. *)
Definition open_json {A} (path : string) (f : file A) : result A :=
  match f with
  | Missing => raise (FileNotFoundError path)
  | NotJson => raise (JSONDecodeError path)
  | Json doc => ok doc
  end.

(** [load_datasets]. The two [getitem_key] are the accesses
    [coco_data['images']] and [coco_data['annotations']] of its first
    [print]. *)
Definition load_datasets (fs : filesystem)
    : result (coco_export * list ls_task) :=
  coco_data ← open_json coco_path (coco_file fs);
  label_studio_data ← open_json label_studio_path (label_studio_file fs);
  _ ← getitem_key (coco_images coco_data) "images";
  _ ← getitem_key (coco_annotations coco_data) "annotations";
  ok (coco_data, label_studio_data).

Section Main.
Context {BG : BitGenerator}.

(** [save_training_dataset]: the file system after the dump. *)
Definition save_training_dataset (fs : filesystem) (st : pystate)
    (d : dataset) : filesystem :=
  mk_filesystem (coco_file fs) (label_studio_file fs)
    (Some (json_dump st d)).

(** [main], run on a file system and an interpreter state. *)
Definition main (fs : filesystem) (st : pystate)
    : result (filesystem * pystate) :=
  loaded ← load_datasets fs;
  let '(coco_data, label_studio_data) := loaded in
  let vbp := extract_all_label_studio_values label_studio_data in
  merged_annotations ← merge_with_coco coco_data vbp;
  let '(d, st') := create_training_dataset merged_annotations st in
  ok (save_training_dataset fs st' d, st').

(** What a dump of the dataset built from [merged_annotations] holds,
    when the builder starts in the state [st]. *)
Definition built_dataset (st : pystate)
    (merged_annotations : list merged_anno) : dataset_json :=
  let '(d, st') := create_training_dataset merged_annotations st in
  json_dump st' d.

(** The builder without the heap: the four lists as values, and the
    generator threaded through the four shuffles, from the seed 42. *)
Definition dataset_of (merged_annotations : list merged_anno)
    : dataset_json * bitgen :=
  let '(hq, g1) :=
    shuffle (bitgen_seed 42) (filter is_high_quality merged_annotations) in
  let '(mq, g2) :=
    shuffle g1 (filter (λ a, ¬ is_high_quality a) merged_annotations) in
  let hq_split := split_index (length hq) in
  let mq_split := split_index (length mq) in
  let '(train_set, g3) :=
    shuffle g2 (take hq_split hq ++ take mq_split mq) in
  let '(val_set, g4) :=
    shuffle g3 (drop hq_split hq ++ drop mq_split mq) in
  (mk_dataset_json train_set val_set hq mq
     (mk_metadata (length merged_annotations) (length hq)
        (list_to_set (ma_category <$> merged_annotations))),
   g4).
End Main.

(** ** Vocabulary of the statements *)

(** The zone codes carried by a list of fused annotations. *)
Definition assigned_zones (l : list merged_anno) : gset string :=
  list_to_set (omap ma_zone_code l).

(** The tables [merge_with_coco] works with. *)
Definition env_of (images : list coco_image) (cats : list coco_category)
    (vbp : gmap string page_values) : merge_env :=
  mk_merge_env (build_image_table images) (build_category_table cats) vbp.

Definition full_export (images : list coco_image) (cats : list coco_category)
    (annos : list coco_annotation) : coco_export :=
  mk_coco_export (Some images) (Some cats) (Some annos).

(** An annotation lists a text when its category is [ZONE_CODE] and the
    text is among the zone codes of its page. *)
Definition lists_zone (env : merge_env) (anno : coco_annotation)
    (t : string) : Prop :=
  category_id_to_name env !! an_category_id anno = Some "ZONE_CODE" ∧
  t ∈ ze_text <$> pv_zone_codes (page_of env anno).

(** "The first [ZONE_CODE] annotation whose page lists a text receives
    that text", for a run that returns. *)
Definition first_lister_gets_zone (images : list coco_image)
    (cats : list coco_category) (annos : list coco_annotation)
    (vbp : gmap string page_values) : Prop :=
  ∀ fused t k anno,
    merge_with_coco (full_export images cats annos) vbp = inr fused →
    annos !! k = Some anno →
    lists_zone (env_of images cats vbp) anno t →
    (∀ k' anno', k' < k → annos !! k' = Some anno' →
                 ¬ lists_zone (env_of images cats vbp) anno' t) →
    ∃ m, fused !! k = Some m ∧ ma_zone_code m = Some t.

(** "Every annotation of a numeric category whose page has a numeric value
    gets the value of index [k % len(normalized_values)] and
    [has_values = true]", for a run that returns. *)
Definition positional_value_always (images : list coco_image)
    (cats : list coco_category) (annos : list coco_annotation)
    (vbp : gmap string page_values) : Prop :=
  ∀ fused k anno name e,
    merge_with_coco (full_export images cats annos) vbp = inr fused →
    annos !! k = Some anno →
    category_id_to_name (env_of images cats vbp) !! an_category_id anno
      = Some name →
    is_numeric_category name = true →
    let values :=
      pv_normalized_values (page_of (env_of images cats vbp) anno) in
    values !! (k `mod` length values) = Some e →
    ∃ m, fused !! k = Some m ∧
         ma_normalized_value m = ve_number e ∧ ma_has_values m = true.

(** The outcome expected of the scenario below: the first [ZONE_CODE]
    annotation gets ["R-1"], the second nothing, the [MIN_LOT_AREA]
    annotation the value 5000 and the unit ["sqft"]. *)
Definition scenario_expected (zone1 zone2 area : merged_anno) : Prop :=
  ma_zone_code zone1 = Some "R-1" ∧ ma_has_values zone1 = true ∧
  ma_zone_code zone2 = None ∧ ma_has_values zone2 = false ∧
  ma_normalized_value area = Some 5000%Z ∧ ma_unit area = Some "sqft" ∧
  ma_has_values area = true.

(** "Annotations with [has_values = true] are in [high_quality], those
    with [has_values = false] in [medium_quality]", for the dataset built
    from [annos]. *)
Definition tiered_by_flag {BG : BitGenerator} (st : pystate)
    (annos : list merged_anno) : Prop :=
  ∀ a, a ∈ annos →
    (ma_has_values a = true →
       a ∈ json_high_quality (built_dataset st annos)) ∧
    (ma_has_values a = false →
       a ∈ json_medium_quality (built_dataset st annos)).

(** ** Example exports *)

Definition value_with_text (t : string) : ls_value :=
  mk_ls_value None None None None None None None None (Some [t]) None.

Definition value_with_number (n : option Z) : ls_value :=
  mk_ls_value None None None None None None None n None None.

Definition value_with_choice (c : string) : ls_value :=
  mk_ls_value None None None None None None None None None (Some [c]).

Definition zone_result (t : string) : ls_result :=
  mk_ls_result (Some "textarea") (Some "zone_code_text")
    (Some (value_with_text t)).

Definition number_result (n : option Z) : ls_result :=
  mk_ls_result (Some "number") (Some "normalized_value")
    (Some (value_with_number n)).

Definition unit_result (c : string) : ls_result :=
  mk_ls_result (Some "choices") (Some "unit") (Some (value_with_choice c)).

(** A task with one annotation that holds the given results. *)
Definition one_page_task (file : string) (results : list ls_result)
    : ls_task :=
  mk_ls_task (Some file) None (Some [mk_ls_annotation (Some results)]).

(** Two images, two [ZONE_CODE] annotations and one [MIN_LOT_AREA]
    annotation on the first image; one page of values with the zone texts
    ["R-1"], ["R-1"] and the number 5000. *)
Definition scenario_images : list coco_image :=
  [mk_coco_image 1 "images/page_1.png"; mk_coco_image 2 "images/page_2.png"].

Definition scenario_categories : list coco_category :=
  [mk_coco_category 1 "ZONE_CODE"; mk_coco_category 2 "MIN_LOT_AREA"].

Definition scenario_annotations : list coco_annotation :=
  [mk_coco_annotation 1 1 1 [10; 10; 100; 20]%Z;
   mk_coco_annotation 2 1 1 [10; 40; 100; 20]%Z;
   mk_coco_annotation 3 1 2 [10; 70; 100; 20]%Z].

Definition scenario_tasks : list ls_task :=
  [one_page_task "upload/page_1.png"
     [zone_result "R-1"; zone_result "R-1"; number_result (Some 5000%Z)]].

Definition scenario_coco : coco_export :=
  full_export scenario_images scenario_categories scenario_annotations.

(** What the fusion returns on the scenario. *)
Definition scenario_fused : list merged_anno :=
  [mk_merged_anno 1 1 "page_1.png" "ZONE_CODE" [10; 10; 100; 20]%Z 2000
     None None (Some "R-1") true;
   mk_merged_anno 2 1 "page_1.png" "ZONE_CODE" [10; 40; 100; 20]%Z 2000
     None None None false;
   mk_merged_anno 3 1 "page_1.png" "MIN_LOT_AREA" [10; 70; 100; 20]%Z 2000
     None None None false].

(** The same export with the [MIN_LOT_AREA] annotation listed first, and
    the same page with a unit choice added. *)
Definition scenario_annotations_area_first : list coco_annotation :=
  [mk_coco_annotation 3 1 2 [10; 70; 100; 20]%Z;
   mk_coco_annotation 1 1 1 [10; 10; 100; 20]%Z;
   mk_coco_annotation 2 1 1 [10; 40; 100; 20]%Z].

Definition scenario_tasks_with_unit : list ls_task :=
  [one_page_task "upload/page_1.png"
     [zone_result "R-1"; zone_result "R-1"; number_result (Some 5000%Z);
      unit_result "sqft"]].

(** Two [ZONE_CODE] annotations on a page that lists two zone texts. *)
Definition two_zones_images : list coco_image :=
  [mk_coco_image 1 "page_1.png"].

Definition two_zones_annotations : list coco_annotation :=
  [mk_coco_annotation 1 1 1 [10; 10; 100; 20]%Z;
   mk_coco_annotation 2 1 1 [10; 40; 100; 20]%Z].

Definition two_zones_fused : list merged_anno :=
  [mk_merged_anno 1 1 "page_1.png" "ZONE_CODE" [10; 10; 100; 20]%Z 2000
     None None (Some "R-1") true;
   mk_merged_anno 2 1 "page_1.png" "ZONE_CODE" [10; 40; 100; 20]%Z 2000
     None None (Some "R-2") true].

Definition two_zones_tasks : list ls_task :=
  [one_page_task "page_1.png" [zone_result "R-1"; zone_result "R-2"]].

(** One [MIN_LOT_AREA] annotation on a page whose only numeric result has
    no number. *)
Definition null_number_annotations : list coco_annotation :=
  [mk_coco_annotation 1 1 2 [10; 10; 100; 20]%Z].

Definition null_number_tasks : list ls_task :=
  [one_page_task "page_1.png" [number_result None]].

Definition null_number_fused : merged_anno :=
  mk_merged_anno 1 1 "page_1.png" "MIN_LOT_AREA" [10; 10; 100; 20]%Z 2000
    None None None true.

(** An interpreter state of the concrete generator, with an empty heap. *)
Definition lcg_state : pystate (BG := lcg_bitgen) :=
  mk_pystate (BG := lcg_bitgen) 0%Z [].

(** The dataset built from the fused annotations of the scenario. *)
Definition scenario_dataset : dataset_json :=
  built_dataset lcg_state scenario_fused.

(** Three annotations that carry a zone code. *)
Definition zoned (i : Z) (z : string) : merged_anno :=
  mk_merged_anno i 1 "page_1.png" "ZONE_CODE" [10; 10; 100; 20]%Z 2000
    None None (Some z) true.

Definition three_zoned : list merged_anno :=
  [zoned 1 "R-1"; zoned 2 "R-2"; zoned 3 "R-3"].

(** Files that load, with an annotation whose category is not in the
    category table, and with an export that has no category table. *)
Definition dangling_fs : filesystem :=
  mk_filesystem
    (Json (full_export [mk_coco_image 1 "page_1.png"]
             [mk_coco_category 1 "ZONE_CODE"]
             [mk_coco_annotation 1 1 7 [10; 10; 100; 20]%Z]))
    (Json []) None.

Definition no_categories_fs : filesystem :=
  mk_filesystem
    (Json (mk_coco_export (Some [mk_coco_image 1 "page_1.png"]) None
             (Some [])))
    (Json []) None.

(** The files of the scenario. *)
Definition scenario_fs : filesystem :=
  mk_filesystem (Json scenario_coco) (Json scenario_tasks) None.

(** ** The value index, read result by result *)

(** All result records of a task, in the order of the export. *)
Definition task_results (task : ls_task) : list ls_result :=
  concat ((λ a, default [] (a_result a)) <$> default [] (t_annotations task)).

(** What each branch of the classification appends for a result record,
    if it is the branch taken. *)
Definition is_rectangle (r : ls_result) : bool :=
  opt_str_is (r_type r) "rectanglelabels".

Definition as_rectangle (r : ls_result) : option rect_data :=
  let value := default empty_value (r_value r) in
  if is_rectangle r then
    Some (mk_rect_data
            (default [] (v_rectanglelabels value))
            (default 0%Z (v_x value)) (default 0%Z (v_y value))
            (default 0%Z (v_width value)) (default 0%Z (v_height value))
            (default 2550%Z (v_original_width value))
            (default 1650%Z (v_original_height value)))
  else None.

Definition as_value (r : ls_result) : option value_entry :=
  let value := default empty_value (r_value r) in
  if negb (is_rectangle r) && opt_str_is (r_from_name r) "normalized_value"
  then Some (mk_value_entry (v_number value)
               (default 0%Z (v_x value)) (default 0%Z (v_y value)))
  else None.

Definition as_zone (r : ls_result) : option zone_entry :=
  let value := default empty_value (r_value r) in
  if negb (is_rectangle r)
     && negb (opt_str_is (r_from_name r) "normalized_value")
     && opt_str_is (r_from_name r) "zone_code_text"
  then match v_text value with
       | Some (String c t :: _) =>
           Some (mk_zone_entry (String c t)
                   (default 0%Z (v_x value)) (default 0%Z (v_y value)))
       | _ => None
       end
  else None.

Definition as_unit (r : ls_result) : option unit_entry :=
  let value := default empty_value (r_value r) in
  if negb (is_rectangle r)
     && negb (opt_str_is (r_from_name r) "normalized_value")
     && negb (opt_str_is (r_from_name r) "zone_code_text")
     && opt_str_is (r_from_name r) "unit"
  then match v_choices value with
       | Some (c :: _) =>
           Some (mk_unit_entry c
                   (default 0%Z (v_x value)) (default 0%Z (v_y value)))
       | _ => None
       end
  else None.

(** The counts [merge_with_coco] prints after the loop:
    [len([a for a in merged_annotations if a['has_values']])] and
    [len([a for a in merged_annotations if a['zone_code']])]. *)
Definition count_with_values (merged : list merged_anno) : nat :=
  length (filter (λ a, ma_has_values a) merged).

Definition count_zone_codes (merged : list merged_anno) : nat :=
  length (filter (λ a, opt_str_truthy (ma_zone_code a)) merged).

(** The unit [merge_with_coco] infers for each recognized category. *)
Definition unit_of_category (category_name : string) : string :=
  if String.eqb category_name "MIN_LOT_AREA" then "sqft"
  else if String.eqb category_name "MAX_LOT_COVERAGE" then "percent"
  else "ft".

(** The zones [save_training_dataset] lists:
    [[a['zone_code'] for a in dataset['high_quality'] if a['zone_code']]]. *)
Definition saved_zones (d : dataset_json) : list string :=
  omap (λ a, match ma_zone_code a with
             | Some z => if str_truthy z then Some z else None
             | None => None
             end) (json_high_quality d).

(** * Properties *)

(** ** Strings and the value index *)

Example split_slash_last_path :
  split_slash_last "/data/upload/1/page_3.png" = "page_3.png".
Proof. reflexivity. Qed.

Example split_slash_last_plain : split_slash_last "page_3.png" = "page_3.png".
Proof. reflexivity. Qed.

Example str_contains_yes : str_contains "LOT_AREA" "MIN_LOT_AREA" = true.
Proof. reflexivity. Qed.

Example str_contains_no : str_contains "WIDTH" "MIN_LOT_AREA" = false.
Proof. reflexivity. Qed.

Example page_key_fallback :
  task_page_key 7 (mk_ls_task None None None) = "page_7".
Proof. vm_compute. reflexivity. Qed.

(** ** Fusion *)

Lemma assigned_zones_snoc l m :
  assigned_zones (l ++ [m]) =
    match ma_zone_code m with
    | Some t => {[t]} ∪ assigned_zones l
    | None => assigned_zones l
    end.
Proof.
  unfold assigned_zones. rewrite omap_app, list_to_set_app_L. simpl.
  destruct (ma_zone_code m); simpl; set_solver.
Qed.

Lemma elem_of_assigned_zones t l :
  t ∈ assigned_zones l ↔ ∃ m, m ∈ l ∧ ma_zone_code m = Some t.
Proof.
  unfold assigned_zones. rewrite elem_of_list_to_set, list_elem_of_omap.
  done.
Qed.

(** [first_new_zone] stops at the first text that is not registered. *)
Lemma first_new_zone_Some zones l t :
  first_new_zone zones l = Some t ↔
  ∃ l1 e l2, l = l1 ++ e :: l2 ∧ ze_text e = t ∧ (t ∉ zones) ∧
             (∀ e', e' ∈ l1 → ze_text e' ∈ zones).
Proof.
  induction l as [|z l IH]; simpl.
  - split; [done|]. intros (l1 & e & l2 & Hl & _). by destruct l1.
  - destruct (decide (ze_text z ∈ zones)) as [Hin|Hin].
    + rewrite IH. split.
      * intros (l1 & e & l2 & -> & <- & Hn & Hall).
        exists (z :: l1), e, l2. split_and!; [done..|].
        intros e' [->|?]%elem_of_cons; auto.
      * intros (l1 & e & l2 & Hl & <- & Hn & Hall).
        destruct l1 as [|z' l1]; simplify_eq/=; [done|].
        exists l1, e, l2. split_and!; [done..|].
        intros e' ?. apply Hall. by right.
    + split.
      * intros [= <-]. exists [], z, l. split_and!; [done..|].
        intros e' ?%elem_of_nil. done.
      * intros (l1 & e & l2 & Hl & <- & Hn & Hall).
        destruct l1 as [|z' l1]; simplify_eq/=; [done|].
        exfalso. apply Hin, Hall. by left.
Qed.

Lemma first_new_zone_None zones l :
  first_new_zone zones l = None ↔ ∀ e, e ∈ l → ze_text e ∈ zones.
Proof.
  induction l as [|z l IH]; simpl.
  - split; [|done]. intros _ e ?%elem_of_nil. done.
  - destruct (decide (ze_text z ∈ zones)) as [Hin|Hin].
    + rewrite IH. split.
      * intros Hall e [->|?]%elem_of_cons; auto.
      * intros Hall e ?. apply Hall. by right.
    + split; [done|]. intros Hall. exfalso. apply Hin, Hall. by left.
Qed.

(** What the dispatch does to the zone code and to the registry. *)
Lemma dispatch_zone_code page name k zones m :
  ma_zone_code m = None →
  ma_zone_code (dispatch page name k zones m).1 =
    (if String.eqb name "ZONE_CODE"
     then first_new_zone zones (pv_zone_codes page) else None) ∧
  (dispatch page name k zones m).2 =
    match ma_zone_code (dispatch page name k zones m).1 with
    | Some t => {[t]} ∪ zones
    | None => zones
    end.
Proof.
  intros Hm. unfold dispatch.
  destruct (String.eqb name "ZONE_CODE").
  - unfold assign_zone. destruct (first_new_zone _ _); simpl; by rewrite ?Hm.
  - destruct (is_numeric_category name); simpl; [|by rewrite Hm].
    assert (ma_zone_code
              (assign_unit page name (assign_value page k m)) = None) as ->;
      [|done].
    unfold assign_unit, assign_value.
    repeat (case_match; simpl; try done).
Qed.

(** One iteration that does not raise: the category is in the table, the
    box has its four entries, and the annotation appended is the dispatch
    on the base annotation. *)
Lemma merge_step_inr env merged zones anno st' :
  merge_step env (merged, zones) anno = inr st' →
  ∃ name w h,
    category_id_to_name env !! an_category_id anno = Some name ∧
    an_bbox anno !! 2 = Some w ∧ an_bbox anno !! 3 = Some h ∧
    st' = (merged ++ [(dispatch (page_of env anno) name (length merged) zones
                         (base_anno env anno name w h)).1],
           (dispatch (page_of env anno) name (length merged) zones
              (base_anno env anno name w h)).2).
Proof.
  unfold merge_step, getitem_int, getitem_list.
  destruct (category_id_to_name env !! an_category_id anno) as [name|];
    simpl; [|done].
  destruct (an_bbox anno !! 2) as [w|]; simpl; [|done].
  destruct (an_bbox anno !! 3) as [h|]; simpl; [|done].
  destruct (dispatch _ _ _ _ _) as [m z] eqn:Hd.
  intros [= <-]. exists name, w, h. by rewrite Hd.
Qed.

Lemma merge_loop_app env l1 l2 st :
  merge_loop env (l1 ++ l2) st =
    (st1 ← merge_loop env l1 st; merge_loop env l2 st1).
Proof.
  revert st. induction l1 as [|a l1 IH]; intros st; simpl; [done|].
  destruct (merge_step env st a) as [e|st1]; simpl; [done|]. apply IH.
Qed.

(** The loop only appends, one annotation per iteration, and keeps the
    registry equal to the zone codes assigned so far. *)
Lemma merge_loop_inr env l merged zones merged' zones' :
  merge_loop env l (merged, zones) = inr (merged', zones') →
  zones = assigned_zones merged →
  zones' = assigned_zones merged' ∧
  ∃ suffix, merged' = merged ++ suffix ∧ length suffix = length l.
Proof.
  revert merged zones. induction l as [|a l IH]; intros merged zones; simpl.
  - intros [= <- <-] Hz. split; [done|]. exists []. by rewrite app_nil_r.
  - destruct (merge_step env (merged, zones) a) as [e|st1] eqn:Hst;
      simpl; [done|].
    apply merge_step_inr in Hst as (name & w & h & _ & _ & _ & ->).
    intros Hloop Hz.
    pose proof (dispatch_zone_code (page_of env a) name (length merged) zones
                  (base_anno env a name w h) eq_refl) as [_ Hreg].
    apply IH in Hloop as [Hz' (suffix & -> & Hlen)].
    + split; [done|]. eexists (_ :: suffix).
      rewrite <- app_assoc. simpl. split; [done|]. by rewrite Hlen.
    + rewrite Hreg, assigned_zones_snoc, Hz. done.
Qed.

(** The state before and after the iteration on the annotation of index
    [k], in terms of the final list. *)
Lemma merge_loop_at env annos fused zones k anno :
  merge_loop env annos ([], ∅) = inr (fused, zones) →
  annos !! k = Some anno →
  merge_step env (take k fused, assigned_zones (take k fused)) anno =
    inr (take (S k) fused, assigned_zones (take (S k) fused)).
Proof.
  intros Hloop Hk.
  pose proof (lookup_lt_Some _ _ _ Hk) as Hlt.
  rewrite <- (take_drop_middle annos k anno Hk), merge_loop_app in Hloop.
  destruct (merge_loop env (take k annos) ([], ∅)) as [e|[m1 z1]] eqn:H1;
    simpl in Hloop; [done|].
  destruct (merge_step env (m1, z1) anno) as [e|[m2 z2]] eqn:H2;
    simpl in Hloop; [done|].
  apply merge_loop_inr in H1 as [-> (s1 & Hm1 & Hl1)]; [|done].
  simpl in Hm1. subst s1.
  pose proof H2 as H2'.
  apply merge_step_inr in H2' as (name & w & h & _ & _ & _ & [= Hm2 Hz2]).
  pose proof (dispatch_zone_code (page_of env anno) name (length m1)
                (assigned_zones m1) (base_anno env anno name w h) eq_refl)
    as [_ Hreg].
  assert (z2 = assigned_zones m2) as ->.
  { rewrite Hz2, Hreg, Hm2, assigned_zones_snoc. done. }
  apply merge_loop_inr in Hloop as [_ (s2 & -> & _)]; [|done].
  rewrite length_take in Hl1.
  assert (length m1 = k) as Hk1 by lia.
  assert (length m2 = S k) as Hk2.
  { rewrite Hm2, length_app. simpl. lia. }
  rewrite (take_app_length' m2 s2 (S k) (eq_sym Hk2)).
  assert (take k m2 = m1) as Hm1.
  { rewrite Hm2. apply take_app_length'; lia. }
  assert (take k (m2 ++ s2) = m1) as ->.
  { rewrite take_app_le by lia. done. }
  done.
Qed.

(** [merge_with_coco] on an export that has its three top-level keys. *)
Lemma merge_with_coco_inr images cats annos vbp fused :
  merge_with_coco (full_export images cats annos) vbp = inr fused →
  ∃ zones,
    merge_loop (env_of images cats vbp) annos ([], ∅) = inr (fused, zones).
Proof.
  unfold merge_with_coco, full_export, env_of. simpl.
  destruct (merge_loop _ _ _) as [e|[m z]]; simpl; [done|].
  intros [= <-]. by exists z.
Qed.

(** The annotation of index [k] of the result, for a run that returns. *)
Lemma merge_with_coco_at images cats annos vbp fused k anno :
  merge_with_coco (full_export images cats annos) vbp = inr fused →
  annos !! k = Some anno →
  let env := env_of images cats vbp in
  ∃ name w h,
    category_id_to_name env !! an_category_id anno = Some name ∧
    an_bbox anno !! 2 = Some w ∧ an_bbox anno !! 3 = Some h ∧
    fused !! k =
      Some (dispatch (page_of env anno) name k (assigned_zones (take k fused))
              (base_anno env anno name w h)).1.
Proof.
  intros [zones Hloop]%merge_with_coco_inr Hk env.
  pose proof (merge_loop_inr _ _ _ _ _ _ Hloop eq_refl) as [_ (s & Hs & Hlen)].
  simpl in Hs. subst s.
  pose proof (lookup_lt_Some _ _ _ Hk) as Hlt.
  pose proof (merge_loop_at _ _ _ _ _ _ Hloop Hk) as Hstep.
  apply merge_step_inr in Hstep as (name & w & h & Hc & Hw & Hh & [= Hm _]).
  exists name, w, h. split_and!; [done..|].
  rewrite length_take, Nat.min_l in Hm by lia.
  rewrite <- (lookup_take_lt fused (S k) k) by lia.
  fold env in Hm. rewrite Hm.
  rewrite lookup_app_r; rewrite length_take, Nat.min_l by lia; [|lia].
  by rewrite Nat.sub_diag.
Qed.

(** The run returns one fused annotation per annotation of the export. *)
Lemma merge_with_coco_length images cats annos vbp fused :
  merge_with_coco (full_export images cats annos) vbp = inr fused →
  length fused = length annos.
Proof.
  intros [zones Hloop]%merge_with_coco_inr.
  by apply merge_loop_inr in Hloop as [_ (s & -> & Hlen)].
Qed.

(** The numeric branch leaves the zone code alone, and the unit inference
    leaves the value and the flag alone. *)
Lemma assign_unit_fields page name m :
  ma_normalized_value (assign_unit page name m) = ma_normalized_value m ∧
  ma_has_values (assign_unit page name m) = ma_has_values m.
Proof. unfold assign_unit. by repeat case_match. Qed.

(** The guard of the value assignment: an entry is selected exactly when
    [k] is below the number of values of the page, and it is the entry of
    index [k]. *)
Lemma assign_value_spec page k m :
  ma_normalized_value m = None → ma_has_values m = false →
  let values := pv_normalized_values page in
  (k < length values →
     ∃ e, values !! (k `mod` length values) = Some e ∧ values !! k = Some e ∧
          ma_normalized_value (assign_value page k m) = ve_number e ∧
          ma_has_values (assign_value page k m) = true) ∧
  (length values ≤ k →
     ma_normalized_value (assign_value page k m) = None ∧
     ma_has_values (assign_value page k m) = false).
Proof.
  intros Hn Hv values. unfold assign_value. fold values.
  destruct values as [|v0 vs] eqn:Hvalues.
  - split; [simpl; lia|done].
  - rewrite <- Hvalues. split; intros Hk.
    + rewrite decide_True by done.
      rewrite Nat.mod_small by done.
      destruct (lookup_lt_is_Some_2 values k Hk) as [e He].
      rewrite He. by exists e.
    + rewrite decide_False by lia. done.
Qed.

Lemma numeric_not_zone name :
  is_numeric_category name = true → String.eqb name "ZONE_CODE" = false.
Proof.
  intros H. destruct (String.eqb_spec name "ZONE_CODE") as [->|]; [|done].
  vm_compute in H. done.
Qed.

(** The value and the flag of the annotation of index [k], when its
    category is numeric. *)
Lemma merge_with_coco_numeric images cats annos vbp fused k anno name :
  merge_with_coco (full_export images cats annos) vbp = inr fused →
  annos !! k = Some anno →
  category_id_to_name (env_of images cats vbp) !! an_category_id anno
    = Some name →
  is_numeric_category name = true →
  ∃ m w h,
    fused !! k = Some m ∧
    let page := page_of (env_of images cats vbp) anno in
    let base := base_anno (env_of images cats vbp) anno name w h in
    ma_normalized_value m = ma_normalized_value (assign_value page k base) ∧
    ma_has_values m = ma_has_values (assign_value page k base).
Proof.
  intros Hrun Hk Hname Hnum.
  destruct (merge_with_coco_at _ _ _ _ _ _ _ Hrun Hk)
    as (name' & w & h & Hname' & _ & _ & Hm).
  rewrite Hname in Hname'. injection Hname' as <-.
  eexists _, w, h. split; [exact Hm|]. simpl.
  unfold dispatch. rewrite (numeric_not_zone _ Hnum), Hnum. simpl.
  apply assign_unit_fields.
Qed.

Lemma scenario_run :
  merge_with_coco scenario_coco
    (extract_all_label_studio_values scenario_tasks) =
  inr scenario_fused.
Proof. vm_compute. reflexivity. Qed.

Lemma null_number_run :
  merge_with_coco
    (full_export two_zones_images scenario_categories null_number_annotations)
    (extract_all_label_studio_values null_number_tasks) =
  inr [null_number_fused].
Proof. vm_compute. reflexivity. Qed.

(** C5, as stated, fails: in the scenario the [MIN_LOT_AREA] annotation is
    the third one ([k = 2]) and its page has one numeric value, so the value
    of index [2 % 1 = 0] would be assigned; the run assigns none. *)
Lemma positional_value_always_fails :
  ¬ positional_value_always scenario_images scenario_categories
      scenario_annotations (extract_all_label_studio_values scenario_tasks).
Proof.
  intros H.
  destruct (H _ 2 (mk_coco_annotation 3 1 2 [10; 70; 100; 20]%Z)
              "MIN_LOT_AREA" (mk_value_entry (Some 5000%Z) 0 0) scenario_run)
    as (m & Hm & Hv & _); [by vm_compute..|].
  vm_compute in Hm. injection Hm as <-. discriminate Hv.
Qed.

(** C5, amended: for an annotation of a numeric category, processed when
    [k] fused annotations exist: if [k] is below the number of numeric values
    of its page, the value of index [k % len] (which is index [k]) is
    assigned and [has_values] is true; otherwise no value is assigned and
    [has_values] is false. *)
Theorem positional_value_guarded images cats annos vbp fused k anno name :
  merge_with_coco (full_export images cats annos) vbp = inr fused →
  annos !! k = Some anno →
  category_id_to_name (env_of images cats vbp) !! an_category_id anno
    = Some name →
  is_numeric_category name = true →
  let values := pv_normalized_values (page_of (env_of images cats vbp) anno) in
  ∃ m, fused !! k = Some m ∧
    (k < length values →
       ∃ e, values !! (k `mod` length values) = Some e ∧
            ma_normalized_value m = ve_number e ∧ ma_has_values m = true) ∧
    (length values ≤ k →
       ma_normalized_value m = None ∧ ma_has_values m = false).
Proof.
  intros Hrun Hk Hname Hnum values.
  destruct (merge_with_coco_numeric _ _ _ _ _ _ _ _ Hrun Hk Hname Hnum)
    as (m & w & h & Hm & Hv & Hf).
  exists m. split; [done|]. simpl in Hv, Hf. rewrite Hv, Hf.
  destruct (assign_value_spec (page_of (env_of images cats vbp) anno) k
              (base_anno (env_of images cats vbp) anno name w h)
              eq_refl eq_refl) as [Hlt Hge].
  split; [|exact Hge].
  intros Hlen. destruct (Hlt Hlen) as (e & He & _ & Hne & Hhe). by exists e.
Qed.

Lemma positional_value_guarded_witness :
  ∃ m, [null_number_fused] !! 0 = Some m ∧
    (0 < 1 → ∃ e, [mk_value_entry None 0 0] !! (0 `mod` 1) = Some e ∧
                  ma_normalized_value m = ve_number e ∧
                  ma_has_values m = true) ∧
    (1 ≤ 0 → ma_normalized_value m = None ∧ ma_has_values m = false).
Proof.
  apply (positional_value_guarded two_zones_images scenario_categories
           null_number_annotations
           (extract_all_label_studio_values null_number_tasks)
           [null_number_fused] 0
           (mk_coco_annotation 1 1 2 [10; 10; 100; 20]%Z) "MIN_LOT_AREA");
    vm_compute; reflexivity.
Defined.

(** C6, as stated, fails: in the scenario the [MIN_LOT_AREA] annotation
    gets neither the value 5000 nor the unit ["sqft"]. *)
Lemma scenario_expected_fails :
  ¬ ∃ zone1 zone2 area,
      merge_with_coco scenario_coco
        (extract_all_label_studio_values scenario_tasks) =
        inr [zone1; zone2; area] ∧
      scenario_expected zone1 zone2 area.
Proof.
  intros (zone1 & zone2 & area & Hrun & Hexp).
  rewrite scenario_run in Hrun. injection Hrun as <- <- <-.
  destruct Hexp as (_ & _ & _ & _ & Hvalue & _). discriminate Hvalue.
Qed.

(** C6, amended: in the scenario the first [ZONE_CODE] annotation gets the
    zone ["R-1"] and [has_values = true], the second one no zone and
    [has_values = false], and the [MIN_LOT_AREA] annotation, listed third
    on a page with one numeric value and no unit choice, gets no value, no
    unit and [has_values = false]. With the [MIN_LOT_AREA] annotation listed
    first and a unit choice on the page, the expected outcome is produced. *)
Theorem scenario_outcome :
  (∃ zone1 zone2 area,
     merge_with_coco scenario_coco
       (extract_all_label_studio_values scenario_tasks) =
       inr [zone1; zone2; area] ∧
     ma_zone_code zone1 = Some "R-1" ∧ ma_has_values zone1 = true ∧
     ma_zone_code zone2 = None ∧ ma_has_values zone2 = false ∧
     ma_normalized_value area = None ∧ ma_unit area = None ∧
     ma_has_values area = false) ∧
  (∃ area zone1 zone2,
     merge_with_coco
       (full_export scenario_images scenario_categories
          scenario_annotations_area_first)
       (extract_all_label_studio_values scenario_tasks_with_unit) =
       inr [area; zone1; zone2] ∧
     scenario_expected zone1 zone2 area).
Proof.
  split.
  - eexists _, _, _. split; [exact scenario_run|]. by split_and!.
  - eexists _, _, _. split; [vm_compute; reflexivity|].
    unfold scenario_expected. by split_and!.
Qed.

(** The indexer keeps a numeric result without a number, as an entry whose
    number is [None]. *)
Lemma index_result_null_number pv r :
  opt_str_is (r_type r) "rectanglelabels" = false →
  r_from_name r = Some "normalized_value" →
  v_number (default empty_value (r_value r)) = None →
  ∃ entry,
    pv_normalized_values (index_result pv r) =
      pv_normalized_values pv ++ [entry] ∧
    ve_number entry = None.
Proof.
  intros Htype Hfrom Hnum. unfold index_result.
  rewrite Htype, Hfrom. simpl. eexists. split; [done|]. simpl. done.
Qed.

(** C9: when the value record selected for an annotation of a numeric
    category has no number, the fused annotation has [has_values = true]
    and [normalized_value = None]. *)
Theorem null_number_sets_flag images cats annos vbp fused k anno name e :
  merge_with_coco (full_export images cats annos) vbp = inr fused →
  annos !! k = Some anno →
  category_id_to_name (env_of images cats vbp) !! an_category_id anno
    = Some name →
  is_numeric_category name = true →
  pv_normalized_values (page_of (env_of images cats vbp) anno) !! k = Some e →
  ve_number e = None →
  ∃ m, fused !! k = Some m ∧
       ma_has_values m = true ∧ ma_normalized_value m = None.
Proof.
  intros Hrun Hk Hname Hnum He Hnone.
  destruct (merge_with_coco_numeric _ _ _ _ _ _ _ _ Hrun Hk Hname Hnum)
    as (m & w & h & Hm & Hv & Hf).
  exists m. split; [done|]. simpl in Hv, Hf. rewrite Hv, Hf.
  destruct (assign_value_spec (page_of (env_of images cats vbp) anno) k
              (base_anno (env_of images cats vbp) anno name w h)
              eq_refl eq_refl) as [Hlt _].
  destruct (Hlt (lookup_lt_Some _ _ _ He)) as (e' & _ & He' & Hne & Hhe).
  rewrite He in He'. injection He' as <-.
  by rewrite Hne, Hhe.
Qed.

Lemma null_number_sets_flag_witness :
  ∃ m, [null_number_fused] !! 0 = Some m ∧
       ma_has_values m = true ∧ ma_normalized_value m = None.
Proof.
  apply (null_number_sets_flag two_zones_images scenario_categories
           null_number_annotations
           (extract_all_label_studio_values null_number_tasks)
           [null_number_fused] 0
           (mk_coco_annotation 1 1 2 [10; 10; 100; 20]%Z) "MIN_LOT_AREA"
           (mk_value_entry None 0 0));
    vm_compute; reflexivity.
Defined.

Lemma two_zones_run :
  merge_with_coco
    (full_export two_zones_images scenario_categories two_zones_annotations)
    (extract_all_label_studio_values two_zones_tasks) =
  inr two_zones_fused.
Proof. vm_compute. reflexivity. Qed.

(** C3, as stated, fails: on a page that lists ["R-1"] and ["R-2"], the
    first [ZONE_CODE] annotation is the first annotation whose page lists
    ["R-2"], and it receives ["R-1"]; ["R-2"] goes to the second one. *)
Lemma first_lister_gets_zone_fails :
  ¬ first_lister_gets_zone two_zones_images scenario_categories
      two_zones_annotations (extract_all_label_studio_values two_zones_tasks).
Proof.
  intros H.
  destruct (H two_zones_fused "R-2" 0
              (mk_coco_annotation 1 1 1 [10; 10; 100; 20]%Z))
    as (m & Hm & Hz).
  - exact two_zones_run.
  - reflexivity.
  - split; [vm_compute; reflexivity|].
    vm_compute. apply list_elem_of_In. right. left. reflexivity.
  - intros k' anno' Hlt. lia.
  - injection Hm as <-. discriminate Hz.
Qed.

(** C3, amended: in a run that returns, no zone text is carried by two
    fused annotations; the annotation of index [k] carries a zone code only
    if its category is [ZONE_CODE], and then it is the first text of its
    page that no earlier fused annotation carries (none if there is no such
    text); the registry starts empty and ends as the set of the texts
    assigned. *)
Theorem zone_code_assigned_once images cats annos vbp fused :
  merge_with_coco (full_export images cats annos) vbp = inr fused →
  let env := env_of images cats vbp in
  (∀ i j a b t,
     fused !! i = Some a → fused !! j = Some b →
     ma_zone_code a = Some t → ma_zone_code b = Some t → i = j) ∧
  (∀ k anno, annos !! k = Some anno →
     ∃ name m,
       category_id_to_name env !! an_category_id anno = Some name ∧
       fused !! k = Some m ∧
       ma_zone_code m =
         if String.eqb name "ZONE_CODE"
         then first_new_zone (assigned_zones (take k fused))
                (pv_zone_codes (page_of env anno))
         else None) ∧
  merge_loop env annos ([], ∅) = inr (fused, assigned_zones fused).
Proof.
  intros Hrun env.
  assert (Hat : ∀ k anno, annos !! k = Some anno →
     ∃ name m,
       category_id_to_name env !! an_category_id anno = Some name ∧
       fused !! k = Some m ∧
       ma_zone_code m =
         if String.eqb name "ZONE_CODE"
         then first_new_zone (assigned_zones (take k fused))
                (pv_zone_codes (page_of env anno))
         else None).
  { intros k anno Hk.
    destruct (merge_with_coco_at _ _ _ _ _ _ _ Hrun Hk)
      as (name & w & h & Hname & _ & _ & Hm).
    eexists name, _. split_and!; [done..|].
    apply dispatch_zone_code. done. }
  assert (Hlt : ∀ i j a b t, i < j →
     fused !! i = Some a → fused !! j = Some b →
     ma_zone_code a = Some t → ma_zone_code b = Some t → False).
  { intros i j a b t Hij Ha Hb Hza Hzb.
    pose proof (merge_with_coco_length _ _ _ _ _ Hrun) as Hlen.
    destruct (lookup_lt_is_Some_2 annos j) as [anno Hanno].
    { rewrite <- Hlen. by eapply lookup_lt_Some. }
    destruct (Hat j anno Hanno) as (name & m & _ & Hm & Hz).
    rewrite Hb in Hm. injection Hm as <-. rewrite Hzb in Hz.
    destruct (String.eqb name "ZONE_CODE"); [|done].
    symmetry in Hz. apply first_new_zone_Some in Hz
      as (_ & _ & _ & _ & _ & Hnew & _).
    apply Hnew, elem_of_assigned_zones. exists a. split; [|done].
    apply list_elem_of_lookup. exists i. by rewrite lookup_take_lt. }
  split_and!.
  - intros i j a b t Ha Hb Hza Hzb.
    destruct (Nat.lt_trichotomy i j) as [Hij|[->|Hij]]; [|done|];
      exfalso; eauto.
  - exact Hat.
  - destruct (merge_with_coco_inr _ _ _ _ _ Hrun) as [zones Hloop].
    pose proof (merge_loop_inr _ _ _ _ _ _ Hloop eq_refl) as [-> _].
    exact Hloop.
Qed.

Lemma zone_code_assigned_once_witness :
  (∀ i j a b t,
     scenario_fused !! i = Some a → scenario_fused !! j = Some b →
     ma_zone_code a = Some t → ma_zone_code b = Some t → i = j) ∧
  merge_loop
    (env_of scenario_images scenario_categories
       (extract_all_label_studio_values scenario_tasks))
    scenario_annotations ([], ∅) =
  inr (scenario_fused, assigned_zones scenario_fused).
Proof.
  destruct (zone_code_assigned_once scenario_images scenario_categories
              scenario_annotations
              (extract_all_label_studio_values scenario_tasks)
              scenario_fused) as (Honce & _ & Hloop).
  - vm_compute. reflexivity.
  - split; [exact Honce|exact Hloop].
Defined.

(** ** The split index *)

Lemma round_half_even_bounds p s :
  (0 ≤ p)%Z → (0 ≤ s)%Z →
  (p / 2 ^ s * 2 ^ s ≤ round_half_even p s * 2 ^ s)%Z ∧
  (2 * (round_half_even p s * 2 ^ s) ≤ 2 * p + 2 ^ s)%Z.
Proof.
  intros Hp Hs. unfold round_half_even.
  assert (HS : (0 < 2 ^ s)%Z) by (apply Z.pow_pos_nonneg; lia).
  pose proof (Z.div_mod p (2 ^ s) ltac:(lia)) as Hdm.
  pose proof (Z.mod_pos_bound p (2 ^ s) HS) as Hr.
  set (q := (p / 2 ^ s)%Z) in *. set (r := (p `mod` 2 ^ s)%Z) in *.
  set (S := (2 ^ s)%Z) in *.
  destruct (Z.ltb_spec (2 * r) S); [nia|].
  destruct (Z.ltb_spec S (2 * r)); [nia|].
  destruct (Z.even q); nia.
Qed.

(** Below [2^50] the double-precision product truncates to the integer
    floor of [0.8 n]. *)
Lemma int_mul_08_floor n :
  (0 ≤ n < 2 ^ 50)%Z → int_mul_08 n = (4 * n / 5)%Z.
Proof.
  intros Hn. unfold int_mul_08.
  set (p := (n * float_08_mant)%Z).
  set (k := (4 * n / 5)%Z).
  assert (Hk : (5 * k ≤ 4 * n < 5 * k + 5)%Z).
  { pose proof (Z.div_mod (4 * n) 5 ltac:(lia)).
    pose proof (Z.mod_pos_bound (4 * n) 5 ltac:(lia)). subst k. lia. }
  assert (H5p : (5 * p = 4 * n * 2 ^ 52 + n)%Z).
  { subst p. unfold float_08_mant.
    change (2 ^ 52)%Z with 4503599627370496%Z. lia. }
  assert (Hlo : (k * 2 ^ 52 ≤ p)%Z)
    by (change (2 ^ 52)%Z with 4503599627370496%Z in *; lia).
  assert (Hhi : (2 ^ 52 - n ≤ 5 * ((k + 1) * 2 ^ 52 - p))%Z)
    by (change (2 ^ 52)%Z with 4503599627370496%Z in *; lia).
  assert (Hp0 : (0 ≤ p)%Z) by (subst p; unfold float_08_mant; lia).
  destruct (Z.leb_spec (Z.log2 p - 52) 0) as [Hs|Hs].
  - symmetry. apply Z.div_unique with (r := (p - k * 2 ^ 52)%Z); [|lia].
    left. change (2 ^ 50)%Z with 1125899906842624%Z in *.
    change (2 ^ 52)%Z with 4503599627370496%Z in *. lia.
  - assert (Hppos : (0 < p)%Z).
    { destruct (Z.eq_dec p 0%Z) as [E|]; [|lia].
      rewrite E in Hs. simpl in Hs. lia. }
    set (s := (Z.log2 p - 52)%Z) in *.
    pose proof (Z.log2_spec p Hppos) as [Hl1 Hl2].
    assert (HS : (0 < 2 ^ s)%Z) by (apply Z.pow_pos_nonneg; lia).
    assert (Hsplit : (2 ^ Z.log2 p = 2 ^ s * 2 ^ 52)%Z).
    { rewrite <- Z.pow_add_r by lia. f_equal. lia. }
    assert (HSn : (2 ^ s < n)%Z).
    { subst p. unfold float_08_mant in *.
      change (2 ^ 52)%Z with 4503599627370496%Z in *. nia. }
    assert (Hs50 : (s < 50)%Z).
    { destruct (Z.lt_ge_cases s 50%Z); [assumption|].
      assert (2 ^ 50 ≤ 2 ^ s)%Z by (apply Z.pow_le_mono_r; lia). lia. }
    assert (HT : (2 ^ 52 = 2 ^ s * 2 ^ (52 - s))%Z).
    { rewrite <- Z.pow_add_r by lia. f_equal. lia. }
    pose proof (round_half_even_bounds p s Hp0 ltac:(lia)) as [Hm1 Hm2].
    set (m := round_half_even p s) in *.
    assert (Hq : (k * 2 ^ (52 - s) ≤ p / 2 ^ s)%Z).
    { apply Z.div_le_lower_bound; [lia|]. rewrite HT in Hlo. lia. }
    symmetry.
    apply Z.div_unique with (r := (m * 2 ^ s - k * 2 ^ 52)%Z); [|lia].
    left. split.
    + rewrite HT at 1. nia.
    + change (2 ^ 50)%Z with 1125899906842624%Z in *.
      change (2 ^ 52)%Z with 4503599627370496%Z in *. lia.
Qed.

Lemma split_index_floor len :
  (Z.of_nat len < 2 ^ 50)%Z → split_index len = len * 4 / 5.
Proof.
  intros HZ. unfold split_index.
  rewrite int_mul_08_floor by lia.
  rewrite <- (Nat2Z.id (len * 4 / 5)). f_equal.
  rewrite Nat2Z.inj_div, Nat2Z.inj_mul. f_equal. lia.
Qed.

Lemma split_index_le len :
  (Z.of_nat len < 2 ^ 50)%Z → split_index len ≤ len.
Proof.
  intros Hlen. rewrite split_index_floor by done.
  apply Nat.Div0.div_le_upper_bound. lia.
Qed.

(** [int_mul_08] computes the IEEE product on the lengths tried: the
    first 3000, and 3000 more around each of [2^31], [2^50] and [2^53]. *)
Example int_mul_08_is_ieee :
  agree_from 3000 0 = true ∧
  agree_from 3000 (2 ^ 31 - 1500) = true ∧
  agree_from 3000 (2 ^ 50 - 1500) = true ∧
  agree_from 3000 (2 ^ 53 - 3000) = true.
Proof. vm_compute. done. Qed.

(** Far beyond any list, the product rounds up to the next integer. *)
Example int_mul_08_above_floor :
  int_mul_08 (2 ^ 52 + 1) = 3602879701896398%Z ∧
  ieee_int_mul_08 (2 ^ 52 + 1) = 3602879701896398%Z ∧
  (4 * (2 ^ 52 + 1) / 5 = 3602879701896397)%Z.
Proof. vm_compute. done. Qed.

Example split_index_1 : split_index 1 = 0.
Proof. reflexivity. Qed.

Example split_index_5 : split_index 5 = 4.
Proof. reflexivity. Qed.

Example split_index_9 : split_index 9 = 7.
Proof. reflexivity. Qed.

(** ** The shuffle *)

Lemma insert_Permutation {A} (l : list A) i x y :
  l !! i = Some x → <[i := y]> l ≡ₚ y :: delete i l.
Proof.
  intros Hi.
  pose proof (lookup_lt_Some _ _ _ Hi) as Hlt.
  rewrite insert_take_drop by done.
  rewrite delete_take_drop.
  by rewrite Permutation_middle.
Qed.

Lemma swap_Permutation {A} (x : list A) i j : swap x i j ≡ₚ x.
Proof.
  unfold swap.
  destruct (x !! j) as [xj|] eqn:Hj; [|done].
  destruct (x !! i) as [xi|] eqn:Hi; [|done].
  destruct (decide (i = j)) as [->|Hne].
  - rewrite list_insert_insert_eq.
    rewrite Hi in Hj. injection Hj as ->. by rewrite list_insert_id.
  - assert (<[i := xj]> x !! j = Some xj) as Hj'
      by (by rewrite list_lookup_insert_ne).
    assert (delete j (<[i := xj]> x) ≡ₚ delete i x) as Hdel.
    { apply (Permutation_cons_inv (a := xj)).
      rewrite <- (delete_Permutation _ _ _ Hj').
      by apply insert_Permutation with xi. }
    rewrite (insert_Permutation _ j xj xi Hj'), Hdel.
    symmetry. by apply delete_Permutation.
Qed.

Section Shuffle.
Context {BG : BitGenerator}.

Lemma shuffle_from_Permutation {A} i g (x : list A) :
  (shuffle_from i g x).1 ≡ₚ x.
Proof.
  revert g x. induction i as [|i IH]; intros g x; simpl; [done|].
  destruct (random_interval g (S i)) as [j g'].
  rewrite IH. apply swap_Permutation.
Qed.

(** [np.random.shuffle] rearranges the list and nothing else. *)
Lemma shuffle_Permutation {A} g (x : list A) : (shuffle g x).1 ≡ₚ x.
Proof. apply shuffle_from_Permutation. Qed.

Lemma shuffle_length {A} g (x : list A) : length (shuffle g x).1 = length x.
Proof. apply Permutation_length, shuffle_Permutation. Qed.

Lemma swap_length {A} (x : list A) i j : length (swap x i j) = length x.
Proof. apply Permutation_length, swap_Permutation. Qed.

(** Every swap of the shuffle has both indices in range, since the draw
    for position [i] is at most [i] and [i] is below the length: the
    shuffle raises no [IndexError] and returns what [shuffle] computes. *)
Lemma shuffle_from_checked_eq {A} i g (x : list A) :
  i < length x ∨ i = 0 →
  shuffle_from_checked i g x = Some (shuffle_from i g x).
Proof.
  revert g x. induction i as [|i IH]; intros g x Hi; simpl; [done|].
  destruct Hi as [Hi|]; [|done].
  pose proof (random_interval_le g (S i)) as Hle.
  destruct (random_interval g (S i)) as [j g']. simpl in Hle.
  destruct (lookup_lt_is_Some_2 x (S i) Hi) as [xi Hxi].
  destruct (lookup_lt_is_Some_2 x j ltac:(lia)) as [xj Hxj].
  unfold swap_checked, swap. rewrite Hxi, Hxj. simpl.
  apply IH. left. rewrite !length_insert. lia.
Qed.

Lemma shuffle_checked_eq {A} g (x : list A) :
  shuffle_checked g x = Some (shuffle g x).
Proof.
  apply shuffle_from_checked_eq. destruct x; simpl; [by right|left; lia].
Qed.
End Shuffle.

(** ** The dataset builder *)

Section BuilderProps.
Context {BG : BitGenerator}.

(** One equation per primitive of the builder. *)
Lemma bind_run {A B} (m : py A) (k : A → py B) st :
  (m ≫= k) st = let '(a, st') := m st in k a st'.
Proof. reflexivity. Qed.

Lemma new_list_run l st :
  new_list l st =
    (length (heap st), mk_pystate (np_random st) (heap st ++ [l])).
Proof. reflexivity. Qed.

Lemma read_list_run x st : read_list x st = (deref st x, st).
Proof. reflexivity. Qed.

Lemma list_append_run x a st :
  list_append x a st =
    (tt, mk_pystate (np_random st) (<[x := deref st x ++ [a]]> (heap st))).
Proof. reflexivity. Qed.

Lemma np_random_seed_run s st :
  np_random_seed s st = (tt, mk_pystate (bitgen_seed s) (heap st)).
Proof. reflexivity. Qed.

Lemma np_random_shuffle_run x st :
  np_random_shuffle x st =
    (tt, mk_pystate (shuffle (np_random st) (deref st x)).2
           (<[x := (shuffle (np_random st) (deref st x)).1]> (heap st))).
Proof.
  unfold np_random_shuffle. by destruct (shuffle _ _).
Qed.

(** Cells of a heap that extends [h]. *)
Lemma deref_cell g (h cells : list (list merged_anno)) x i :
  x = length h + i →
  deref (mk_pystate g (h ++ cells)) x = default [] (cells !! i).
Proof.
  intros ->. unfold deref. simpl.
  by rewrite lookup_app_r, Nat.add_comm, Nat.add_sub by lia.
Qed.

Lemma insert_cell (h cells : list (list merged_anno)) x i l :
  x = length h + i → <[x := l]> (h ++ cells) = h ++ <[i := l]> cells.
Proof. intros ->. apply insert_app_r. Qed.

(** The partition loop appends each annotation to one of the two tiers,
    in input order. *)
Lemma partition_loop g h acc_hq acc_mq l :
  for_each (λ anno,
      if is_high_quality anno then list_append (length h) anno
      else list_append (length h + 1) anno) l
    (mk_pystate g (h ++ [acc_hq; acc_mq])) =
  (tt, mk_pystate g
         (h ++ [acc_hq ++ filter is_high_quality l;
                acc_mq ++ filter (λ a, ¬ is_high_quality a) l])).
Proof.
  revert acc_hq acc_mq.
  induction l as [|a l IH]; intros acc_hq acc_mq.
  - simpl. by rewrite !app_nil_r.
  - rewrite filter_cons, (filter_cons (λ a, ¬ is_high_quality a)).
    cbn [for_each]. rewrite bind_run.
    destruct (is_high_quality a) eqn:Ha.
    + rewrite list_append_run. cbn [heap np_random].
      rewrite (deref_cell _ _ _ _ 0), (insert_cell _ _ _ 0) by lia.
      cbn [lookup list_lookup default from_option id insert list_insert]. rewrite IH.
      rewrite decide_True, decide_False by naive_solver.
      by rewrite <- app_assoc.
    + rewrite list_append_run. cbn [heap np_random].
      rewrite (deref_cell _ _ _ _ 1), (insert_cell _ _ _ 1) by lia.
      cbn [lookup list_lookup default from_option id insert list_insert]. rewrite IH.
      rewrite decide_False, decide_True by naive_solver.
      by rewrite <- app_assoc.
Qed.

(** The builder, run on the heap: it allocates the two tiers and the two
    splits after the cells already there, shuffles each of them in its
    cell, and leaves the generator where the four shuffles left it. *)
Lemma create_training_dataset_run st annos hq g1 mq g2 tr g3 va g4 :
  shuffle (bitgen_seed 42) (filter is_high_quality annos) = (hq, g1) →
  shuffle g1 (filter (λ a, ¬ is_high_quality a) annos) = (mq, g2) →
  shuffle g2 (take (split_index (length hq)) hq ++
              take (split_index (length mq)) mq) = (tr, g3) →
  shuffle g3 (drop (split_index (length hq)) hq ++
              drop (split_index (length mq)) mq) = (va, g4) →
  create_training_dataset annos st =
    (mk_dataset (length (heap st) + 2) (length (heap st) + 3)
       (length (heap st)) (length (heap st) + 1)
       (mk_metadata (length annos) (length hq)
          (list_to_set (ma_category <$> annos))),
     mk_pystate g4 (heap st ++ [hq; mq; tr; va])).
Proof.
  intros Hhq Hmq Htr Hva. destruct st as [g0 h].
  unfold create_training_dataset.
  rewrite bind_run, new_list_run. cbn [heap np_random].
  rewrite bind_run, new_list_run. cbn [heap np_random].
  rewrite length_app, <- app_assoc. cbn [length app].
  rewrite bind_run, partition_loop. cbn [app].
  rewrite bind_run, np_random_seed_run. cbn [heap np_random].
  rewrite bind_run, np_random_shuffle_run. cbn [heap np_random].
  rewrite (deref_cell _ _ _ _ 0), (insert_cell _ _ _ 0) by lia.
  cbn [lookup list_lookup default from_option id insert list_insert].
  rewrite Hhq. cbn [fst snd].
  rewrite bind_run, np_random_shuffle_run. cbn [heap np_random].
  rewrite (deref_cell _ _ _ _ 1), (insert_cell _ _ _ 1) by lia.
  cbn [lookup list_lookup default from_option id insert list_insert].
  rewrite Hmq. cbn [fst snd].
  rewrite bind_run, read_list_run, (deref_cell _ _ _ _ 0) by lia.
  rewrite bind_run, read_list_run, (deref_cell _ _ _ _ 1) by lia.
  cbn [lookup list_lookup default from_option id]. cbv zeta.
  rewrite bind_run, new_list_run. cbn [heap np_random].
  rewrite bind_run, new_list_run. cbn [heap np_random].
  rewrite !length_app, <- !app_assoc. cbn [length app].
  rewrite bind_run, np_random_shuffle_run. cbn [heap np_random].
  rewrite (deref_cell _ _ _ _ 2), (insert_cell _ _ _ 2) by lia.
  cbn [lookup list_lookup default from_option id insert list_insert].
  rewrite Htr. cbn [fst snd].
  rewrite bind_run, np_random_shuffle_run. cbn [heap np_random].
  rewrite (deref_cell _ _ _ _ 3), (insert_cell _ _ _ 3) by lia.
  cbn [lookup list_lookup default from_option id insert list_insert].
  rewrite Hva. cbn [fst snd].
  rewrite bind_run, read_list_run, (deref_cell _ _ _ _ 0) by lia.
  cbn [lookup list_lookup default from_option id].
  unfold mret, py_ret. do 2 f_equal; lia.
Qed.
(** [dataset_of], with its four shuffles named. *)
Lemma dataset_of_eq annos :
  ∃ hq g1 mq g2 tr g3 va g4,
    shuffle (bitgen_seed 42) (filter is_high_quality annos) = (hq, g1) ∧
    shuffle g1 (filter (λ a, ¬ is_high_quality a) annos) = (mq, g2) ∧
    shuffle g2 (take (split_index (length hq)) hq ++
                take (split_index (length mq)) mq) = (tr, g3) ∧
    shuffle g3 (drop (split_index (length hq)) hq ++
                drop (split_index (length mq)) mq) = (va, g4) ∧
    dataset_of annos =
      (mk_dataset_json tr va hq mq
         (mk_metadata (length annos) (length hq)
            (list_to_set (ma_category <$> annos))), g4).
Proof.
  unfold dataset_of.
  destruct (shuffle (bitgen_seed 42) _) as [hq g1] eqn:Hhq.
  destruct (shuffle g1 _) as [mq g2] eqn:Hmq.
  destruct (shuffle g2 _) as [tr g3] eqn:Htr.
  destruct (shuffle g3 _) as [va g4] eqn:Hva.
  by eexists hq, g1, mq, g2, tr, g3, va, g4.
Qed.

(** The dump of the dataset does not depend on the state the builder
    starts in. *)
Lemma built_dataset_eq st annos :
  built_dataset st annos = (dataset_of annos).1.
Proof.
  destruct (dataset_of_eq annos)
    as (hq & g1 & mq & g2 & tr & g3 & va & g4 & Hhq & Hmq & Htr & Hva & ->).
  unfold built_dataset.
  rewrite (create_training_dataset_run st annos _ _ _ _ _ _ _ _
             Hhq Hmq Htr Hva).
  unfold json_dump. cbn [train validation high_quality medium_quality
                         dataset_metadata fst].
  rewrite (deref_cell _ _ _ _ 2), (deref_cell _ _ _ _ 3),
    (deref_cell _ _ _ _ 0), (deref_cell _ _ _ _ 1) by lia.
  reflexivity.
Qed.

(** The four lists of the dataset, up to order. *)
Lemma dataset_of_lists annos :
  let d := (dataset_of annos).1 in
  let hq := json_high_quality d in
  let mq := json_medium_quality d in
  hq = (shuffle (bitgen_seed 42) (filter is_high_quality annos)).1 ∧
  mq = (shuffle (shuffle (bitgen_seed 42)
                   (filter is_high_quality annos)).2
          (filter (λ a, ¬ is_high_quality a) annos)).1 ∧
  hq ≡ₚ filter is_high_quality annos ∧
  mq ≡ₚ filter (λ a, ¬ is_high_quality a) annos ∧
  json_train d ≡ₚ take (split_index (length hq)) hq ++
                  take (split_index (length mq)) mq ∧
  json_validation d ≡ₚ drop (split_index (length hq)) hq ++
                       drop (split_index (length mq)) mq ∧
  json_metadata d = mk_metadata (length annos) (length hq)
                      (list_to_set (ma_category <$> annos)).
Proof.
  destruct (dataset_of_eq annos)
    as (hq & g1 & mq & g2 & tr & g3 & va & g4 & Hhq & Hmq & Htr & Hva & ->).
  cbn [fst json_high_quality json_medium_quality json_train
       json_validation json_metadata].
  rewrite Hhq. cbn [fst snd]. rewrite Hmq. cbn [fst].
  split_and!; try done.
  - rewrite <- (shuffle_Permutation (bitgen_seed 42)
                  (filter is_high_quality annos)).
    by rewrite Hhq.
  - rewrite <- (shuffle_Permutation g1
                  (filter (λ a, ¬ is_high_quality a) annos)).
    by rewrite Hmq.
  - rewrite <- (shuffle_Permutation g2 (take _ hq ++ take _ mq)).
    by rewrite Htr.
  - rewrite <- (shuffle_Permutation g3 (drop _ hq ++ drop _ mq)).
    by rewrite Hva.
Qed.

(** Membership in the tiers is decided by [is_high_quality]. *)
Lemma dataset_of_tiers annos a :
  let d := (dataset_of annos).1 in
  (a ∈ json_high_quality d ↔ a ∈ annos ∧ is_high_quality a = true) ∧
  (a ∈ json_medium_quality d ↔ a ∈ annos ∧ is_high_quality a = false).
Proof.
  destruct (dataset_of_lists annos) as (_ & _ & Hhq & Hmq & _).
  cbv zeta. rewrite Hhq, Hmq, !list_elem_of_filter.
  destruct (is_high_quality a); simpl; naive_solver.
Qed.

(** Splitting two lists and gathering the four parts loses nothing. *)
Lemma split_Permutation (hq mq : list merged_anno) i j :
  (take i hq ++ take j mq) ++ (drop i hq ++ drop j mq) ≡ₚ hq ++ mq.
Proof.
  rewrite <- (take_drop i hq) at 3. rewrite <- (take_drop j mq) at 3.
  rewrite <- !app_assoc. apply Permutation_app_head.
  rewrite !app_assoc. apply Permutation_app_tail.
  apply Permutation_app_comm.
Qed.
End BuilderProps.

(** C1: the two tiers are disjoint and hold, together, exactly the input
    annotations; training and validation sets hold, together, exactly the
    annotations of the two tiers; so the sizes add up to the total count. *)
Theorem tiers_and_split_partition {BG : BitGenerator} (st : pystate)
    (annos : list merged_anno) :
  let d := built_dataset st annos in
  (∀ a, a ∈ json_high_quality d → a ∉ json_medium_quality d) ∧
  json_high_quality d ++ json_medium_quality d ≡ₚ annos ∧
  json_train d ++ json_validation d ≡ₚ
    json_high_quality d ++ json_medium_quality d ∧
  length (json_train d) + length (json_validation d) =
    length (json_high_quality d) + length (json_medium_quality d) ∧
  length (json_high_quality d) + length (json_medium_quality d) =
    length annos ∧
  total_annotations (json_metadata d) = length annos.
Proof.
  cbv zeta. rewrite built_dataset_eq.
  destruct (dataset_of_lists annos)
    as (_ & _ & Hhq & Hmq & Htr & Hva & Hmeta).
  assert (Hall : json_high_quality (dataset_of annos).1 ++
                 json_medium_quality (dataset_of annos).1 ≡ₚ annos).
  { rewrite Hhq, Hmq. apply filter_app_complement. }
  assert (Hsplit : json_train (dataset_of annos).1 ++
                   json_validation (dataset_of annos).1 ≡ₚ
                   json_high_quality (dataset_of annos).1 ++
                   json_medium_quality (dataset_of annos).1).
  { rewrite Htr, Hva. apply split_Permutation. }
  split_and!.
  - intros a Ha Hb.
    apply (dataset_of_tiers annos a) in Ha as [_ Ha].
    apply (dataset_of_tiers annos a) in Hb as [_ Hb]. congruence.
  - exact Hall.
  - exact Hsplit.
  - rewrite <- !length_app. by apply Permutation_length.
  - rewrite <- length_app. by apply Permutation_length.
  - by rewrite Hmeta.
Qed.

(** C2: two runs of the pipeline on the same files, from any two
    interpreter states, both fail with the same exception or both write a
    dataset, with the same training set and the same validation set,
    contents and order; the builder's output is that of the four shuffles
    drawn from the generator seeded with 42. *)
Theorem split_reproducible {BG : BitGenerator} (fs : filesystem)
    (st1 st2 : pystate) :
  match main fs st1, main fs st2 with
  | inr (fs1, _), inr (fs2, _) =>
      ∃ d1 d2, output_file fs1 = Some d1 ∧ output_file fs2 = Some d2 ∧
               json_train d1 = json_train d2 ∧
               json_validation d1 = json_validation d2
  | inl e1, inl e2 => e1 = e2
  | _, _ => False
  end ∧
  ∀ annos, built_dataset st1 annos = (dataset_of annos).1 ∧
           built_dataset st2 annos = (dataset_of annos).1.
Proof.
  split; [|intros annos; by rewrite !built_dataset_eq].
  unfold main.
  destruct (load_datasets fs) as [e|[coco_data label_studio_data]];
    simpl; [done|].
  destruct (merge_with_coco _ _) as [e|merged]; simpl; [done|].
  pose proof (built_dataset_eq st1 merged) as H1.
  pose proof (built_dataset_eq st2 merged) as H2.
  unfold built_dataset in H1, H2.
  destruct (create_training_dataset merged st1) as [d1 st1'].
  destruct (create_training_dataset merged st2) as [d2 st2'].
  simpl. eexists _, _. split_and!; [done..| |]; by rewrite H1, H2.
Qed.

(** ** Tiers and the flag *)

(** A fused annotation whose flag is false carries neither a zone code nor
    a value. *)
Lemma dispatch_flag page name k zones env anno w h :
  let m := (dispatch page name k zones (base_anno env anno name w h)).1 in
  ma_has_values m = false →
  ma_zone_code m = None ∧ ma_normalized_value m = None.
Proof.
  unfold dispatch, assign_zone, assign_unit, assign_value. cbv zeta.
  repeat (case_match; simpl; try done).
Qed.

Lemma fused_flag images cats annos vbp fused a :
  merge_with_coco (full_export images cats annos) vbp = inr fused →
  a ∈ fused → ma_has_values a = false →
  ma_zone_code a = None ∧ ma_normalized_value a = None.
Proof.
  intros Hrun [k Hk]%list_elem_of_lookup Hflag.
  destruct (lookup_lt_is_Some_2 annos k) as [anno Hanno].
  { rewrite <- (merge_with_coco_length _ _ _ _ _ Hrun).
    by eapply lookup_lt_Some. }
  destruct (merge_with_coco_at _ _ _ _ _ _ _ Hrun Hanno)
    as (name & w & h & _ & _ & _ & Hm).
  rewrite Hk in Hm. injection Hm as ->.
  by apply dispatch_flag in Hflag.
Qed.

(** C4, as stated, fails: the annotation fused from a numeric result
    without a number has [has_values = true] and is not in
    [high_quality]. *)
Lemma tiered_by_flag_fails :
  ¬ tiered_by_flag lcg_state [null_number_fused].
Proof.
  intros H.
  destruct (H null_number_fused) as [Hhq _]; [by left|].
  specialize (Hhq eq_refl).
  vm_compute in Hhq. by apply elem_of_nil in Hhq.
Qed.

(** C4, amended: a fused annotation is in [high_quality] when its zone code
    is a non-empty string or its value is a number other than zero; it is
    in [medium_quality] when [has_values] is false, and when it has neither
    a zone code nor a number, whatever its flag. *)
Theorem tiered_by_values {BG : BitGenerator} (st : pystate)
    images cats annos vbp fused a :
  merge_with_coco (full_export images cats annos) vbp = inr fused →
  a ∈ fused →
  let d := built_dataset st fused in
  (opt_str_truthy (ma_zone_code a) = true ∨
   opt_num_truthy (ma_normalized_value a) = true →
     a ∈ json_high_quality d) ∧
  (ma_has_values a = false → a ∈ json_medium_quality d) ∧
  (ma_zone_code a = None → ma_normalized_value a = None →
     a ∈ json_medium_quality d).
Proof.
  intros Hrun Ha. cbv zeta. rewrite built_dataset_eq.
  destruct (dataset_of_tiers fused a) as [Hhq Hmq].
  assert (Hnone : ma_zone_code a = None → ma_normalized_value a = None →
                  a ∈ json_medium_quality (dataset_of fused).1).
  { intros Hz Hv. apply Hmq. split; [done|].
    unfold is_high_quality. by rewrite Hz, Hv. }
  split_and!.
  - intros Htruthy. apply Hhq. split; [done|].
    unfold is_high_quality. destruct Htruthy as [-> | ->]; [done|].
    apply orb_true_r.
  - intros Hflag.
    destruct (fused_flag _ _ _ _ _ _ Hrun Ha Hflag) as [Hz Hv]. auto.
  - exact Hnone.
Qed.

Lemma tiered_by_values_witness :
  (opt_str_truthy (ma_zone_code (zoned 1 "R-1")) = true ∨
   opt_num_truthy (ma_normalized_value (zoned 1 "R-1")) = true →
     zoned 1 "R-1" ∈ json_high_quality scenario_dataset) ∧
  (ma_has_values (zoned 1 "R-1") = false →
     zoned 1 "R-1" ∈ json_medium_quality scenario_dataset) ∧
  (ma_zone_code (zoned 1 "R-1") = None →
   ma_normalized_value (zoned 1 "R-1") = None →
     zoned 1 "R-1" ∈ json_medium_quality scenario_dataset).
Proof.
  apply (tiered_by_values (BG := lcg_bitgen) lcg_state scenario_images
           scenario_categories scenario_annotations
           (extract_all_label_studio_values scenario_tasks)
           scenario_fused (zoned 1 "R-1")).
  - vm_compute. reflexivity.
  - by left.
Defined.

(** ** The split *)

(** C8: for tiers of fewer than [2^50] annotations (beyond any list a
    machine holds), the split index [int(len * 0.8)] of each tier is the
    integer floor of [0.8 len]; the training set is made of the first
    [floor(0.8 len)] annotations of each shuffled tier and the validation
    set of the others; a tier of one annotation has split index 0, and its
    annotation is in the validation set and not in the training set. *)
Theorem split_index_is_floor {BG : BitGenerator} (st : pystate)
    (annos : list merged_anno) :
  (Z.of_nat (length annos) < 2 ^ 50)%Z →
  let d := built_dataset st annos in
  let hq := json_high_quality d in
  let mq := json_medium_quality d in
  split_index (length hq) = length hq * 4 / 5 ∧
  split_index (length mq) = length mq * 4 / 5 ∧
  json_train d ≡ₚ take (length hq * 4 / 5) hq ++ take (length mq * 4 / 5) mq ∧
  json_validation d ≡ₚ
    drop (length hq * 4 / 5) hq ++ drop (length mq * 4 / 5) mq ∧
  split_index 1 = 0 ∧
  (∀ a, hq = [a] ∨ mq = [a] → a ∈ json_validation d ∧ a ∉ json_train d).
Proof.
  intros Hlen. cbv zeta. rewrite built_dataset_eq.
  destruct (dataset_of_lists annos)
    as (_ & _ & Hhq & Hmq & Htr & Hva & _).
  set (d := (dataset_of annos).1) in *.
  set (hq := json_high_quality d) in *.
  set (mq := json_medium_quality d) in *.
  assert (Hall : hq ++ mq ≡ₚ annos).
  { rewrite Hhq, Hmq. apply filter_app_complement. }
  apply Permutation_length in Hall. rewrite length_app in Hall.
  assert (Hs1 : split_index (length hq) = length hq * 4 / 5)
    by (apply split_index_floor; lia).
  assert (Hs2 : split_index (length mq) = length mq * 4 / 5)
    by (apply split_index_floor; lia).
  rewrite Hs1, Hs2 in Htr, Hva.
  split_and!; [done..|].
  intros a Hone.
  assert (Hdisj : ∀ b, b ∈ hq → b ∈ mq → False).
  { intros b Hb1 Hb2.
    apply (dataset_of_tiers annos b) in Hb1 as [_ Hb1].
    apply (dataset_of_tiers annos b) in Hb2 as [_ Hb2]. congruence. }
  rewrite Htr, Hva.
  destruct Hone as [Hone|Hone]; rewrite Hone in *; simpl.
  - split; [by left|].
    intros Hin%subseteq_take. apply (Hdisj a); [|done]. by left.
  - split.
    + apply elem_of_app. right. by left.
    + rewrite app_nil_r. intros Hin%subseteq_take.
      apply (Hdisj a); [done|]. by left.
Qed.

Lemma split_index_is_floor_witness :
  split_index (length (json_high_quality scenario_dataset)) =
    length (json_high_quality scenario_dataset) * 4 / 5 ∧
  split_index (length (json_medium_quality scenario_dataset)) =
    length (json_medium_quality scenario_dataset) * 4 / 5 ∧
  json_train scenario_dataset ≡ₚ
    take (length (json_high_quality scenario_dataset) * 4 / 5)
      (json_high_quality scenario_dataset) ++
    take (length (json_medium_quality scenario_dataset) * 4 / 5)
      (json_medium_quality scenario_dataset) ∧
  json_validation scenario_dataset ≡ₚ
    drop (length (json_high_quality scenario_dataset) * 4 / 5)
      (json_high_quality scenario_dataset) ++
    drop (length (json_medium_quality scenario_dataset) * 4 / 5)
      (json_medium_quality scenario_dataset) ∧
  split_index 1 = 0 ∧
  (∀ a, json_high_quality scenario_dataset = [a] ∨
        json_medium_quality scenario_dataset = [a] →
        a ∈ json_validation scenario_dataset ∧
        a ∉ json_train scenario_dataset).
Proof.
  apply (split_index_is_floor (BG := lcg_bitgen) lcg_state scenario_fused).
  vm_compute. reflexivity.
Defined.

(** In the scenario the only [high_quality] annotation goes to the
    validation set. *)
Example scenario_single_high_quality :
  json_high_quality (built_dataset lcg_state scenario_fused) = [zoned 1 "R-1"] ∧
  ma_id <$> json_train (built_dataset lcg_state scenario_fused) = [2%Z] ∧
  ma_id <$> json_validation (built_dataset lcg_state scenario_fused)
    = [3%Z; 1%Z].
Proof. vm_compute. done. Qed.

(** ** The tiers of the envelope *)

(** C10: the [high_quality] and [medium_quality] lists of the returned
    dict are the list objects the builder shuffled in place, so the dump
    holds the tiers in the order of the seeded shuffles, not in input
    order: the first shuffle from the seed 42 for [high_quality], the next
    one for [medium_quality]. With the concrete generator, three zoned
    annotations come out in another order than they came in. *)
Theorem envelope_tiers_are_shuffled :
  (∀ (BG : BitGenerator) (st : pystate) (annos : list merged_anno),
     let shuffled_hq :=
       shuffle (bitgen_seed 42) (filter is_high_quality annos) in
     let shuffled_mq :=
       shuffle shuffled_hq.2 (filter (λ a, ¬ is_high_quality a) annos) in
     let '(d, st') := create_training_dataset annos st in
     high_quality d = length (heap st) ∧
     medium_quality d = length (heap st) + 1 ∧
     heap st' !! high_quality d = Some shuffled_hq.1 ∧
     heap st' !! medium_quality d = Some shuffled_mq.1 ∧
     json_high_quality (json_dump st' d) = shuffled_hq.1 ∧
     json_medium_quality (json_dump st' d) = shuffled_mq.1) ∧
  filter is_high_quality three_zoned = three_zoned ∧
  json_high_quality (built_dataset lcg_state three_zoned) =
    [zoned 2 "R-2"; zoned 3 "R-3"; zoned 1 "R-1"].
Proof.
  split; [|by vm_compute].
  intros BG st annos. cbv zeta.
  destruct (dataset_of_eq annos)
    as (hq & g1 & mq & g2 & tr & g3 & va & g4 & Hhq & Hmq & Htr & Hva & _).
  rewrite (create_training_dataset_run st annos _ _ _ _ _ _ _ _
             Hhq Hmq Htr Hva).
  rewrite Hhq. cbn [fst snd]. rewrite Hmq.
  unfold json_dump.
  cbn [fst snd high_quality medium_quality json_high_quality
       json_medium_quality heap].
  rewrite (deref_cell _ _ _ _ 0), (deref_cell _ _ _ _ 1) by lia.
  split_and!; try done.
  - by rewrite (lookup_app_r (heap st)), Nat.sub_diag by lia.
  - rewrite (lookup_app_r (heap st)) by lia.
    by replace (length (heap st) + 1 - length (heap st)) with 1 by lia.
Qed.

(** ** The loader and the exceptions *)

Lemma load_datasets_missing_coco fs :
  coco_file fs = Missing →
  load_datasets fs = inl (FileNotFoundError coco_path).
Proof. intros H. unfold load_datasets. by rewrite H. Qed.

Lemma load_datasets_missing_label_studio fs doc :
  coco_file fs = Json doc → label_studio_file fs = Missing →
  load_datasets fs = inl (FileNotFoundError label_studio_path).
Proof. intros H1 H2. unfold load_datasets. by rewrite H1, H2. Qed.

Lemma load_datasets_no_images fs doc tasks :
  coco_file fs = Json doc → label_studio_file fs = Json tasks →
  coco_images doc = None →
  load_datasets fs = inl (KeyError_str "images").
Proof.
  intros H1 H2 H3. unfold load_datasets. rewrite H1, H2. simpl.
  by rewrite H3.
Qed.

Lemma load_datasets_no_annotations fs doc tasks images :
  coco_file fs = Json doc → label_studio_file fs = Json tasks →
  coco_images doc = Some images → coco_annotations doc = None →
  load_datasets fs = inl (KeyError_str "annotations").
Proof.
  intros H1 H2 H3 H4. unfold load_datasets. rewrite H1, H2. simpl.
  by rewrite H3, H4.
Qed.

(** The fusion returns, with one fused annotation per annotation, when
    every category identifier is in the category table and every box has
    its four entries. *)
Lemma merge_loop_completes env annos st :
  Forall (λ a, is_Some (category_id_to_name env !! an_category_id a) ∧
               4 ≤ length (an_bbox a)) annos →
  ∃ st', merge_loop env annos st = inr st'.
Proof.
  revert st. induction annos as [|a annos IH]; intros st Hall; simpl.
  - by exists st.
  - apply Forall_cons in Hall as [[[name Hname] Hbox] Hall].
    destruct st as [merged zones]. unfold merge_step, getitem_int.
    rewrite Hname. simpl. unfold getitem_list.
    destruct (lookup_lt_is_Some_2 (an_bbox a) 2) as [w ->]; [lia|].
    destruct (lookup_lt_is_Some_2 (an_bbox a) 3) as [h ->]; [lia|].
    simpl. destruct (dispatch _ _ _ _ _) as [m zones']. simpl.
    by apply IH.
Qed.

Lemma merge_with_coco_completes images cats annos vbp :
  Forall (λ a, is_Some (build_category_table cats !! an_category_id a) ∧
               4 ≤ length (an_bbox a)) annos →
  ∃ fused, merge_with_coco (full_export images cats annos) vbp = inr fused ∧
           length fused = length annos.
Proof.
  intros Hall.
  destruct (merge_loop_completes (env_of images cats vbp) annos ([], ∅) Hall)
    as [[fused zones] Hloop].
  exists fused.
  assert (merge_with_coco (full_export images cats annos) vbp = inr fused)
    as Hrun.
  { unfold merge_with_coco, full_export. simpl.
    unfold env_of in Hloop. by rewrite Hloop. }
  split; [done|]. by eapply merge_with_coco_length.
Qed.

(** The pipeline returns and writes the dataset when the files load, the
    export has its category table, every category identifier is in it and
    every box has its four entries. *)
Lemma main_completes {BG : BitGenerator} fs (st : pystate)
    images cats annos tasks :
  coco_file fs = Json (full_export images cats annos) →
  label_studio_file fs = Json tasks →
  Forall (λ a, is_Some (build_category_table cats !! an_category_id a) ∧
               4 ≤ length (an_bbox a)) annos →
  ∃ fs' st' d,
    main fs st = inr (fs', st') ∧ output_file fs' = Some d ∧
    total_annotations (json_metadata d) = length annos.
Proof.
  intros Hcoco Hls Hall.
  destruct (merge_with_coco_completes images cats annos
              (extract_all_label_studio_values tasks) Hall)
    as (fused & Hrun & Hlen).
  unfold main, load_datasets. rewrite Hcoco, Hls. simpl. rewrite Hrun. simpl.
  pose proof (built_dataset_eq st fused) as Hbuilt.
  unfold built_dataset in Hbuilt.
  destruct (create_training_dataset fused st) as [d st'].
  exists (save_training_dataset fs st' d), st', (json_dump st' d).
  split_and!; [done..|]. rewrite Hbuilt.
  destruct (dataset_of_lists fused) as (_ & _ & _ & _ & _ & _ & ->).
  done.
Qed.

(** C7: the files of [dangling_fs] load, and the run raises [KeyError] on
    the category identifier 7, which is not in the category table; the
    files of [no_categories_fs] load too, and the run raises [KeyError] on
    the missing key [categories]. *)
Theorem dangling_category_aborts {BG : BitGenerator} (st : pystate) :
  (∃ loaded, load_datasets dangling_fs = inr loaded) ∧
  main dangling_fs st = inl (KeyError_int 7) ∧
  (∃ loaded, load_datasets no_categories_fs = inr loaded) ∧
  main no_categories_fs st = inl (KeyError_str "categories").
Proof.
  split_and!; [by eexists| |by eexists|]; reflexivity.
Qed.

(** * Further properties of the pipeline *)

(** ** File names *)

Lemma prefix_slash_cons c s :
  String.prefix "/" (String c s) = Ascii.eqb "/" c.
Proof.
  change (String.prefix "/" (String c s))
    with (if ascii_dec "/" c then String.prefix "" s else false).
  destruct (ascii_dec "/" c) as [<-|Hne].
  - by destruct s.
  - symmetry. by apply Ascii.eqb_neq.
Qed.

Lemma str_contains_slash_cons c s :
  str_contains "/" (String c s) = Ascii.eqb c "/" || str_contains "/" s.
Proof.
  cbn [str_contains]. by rewrite prefix_slash_cons, Ascii.eqb_sym.
Qed.

Lemma str_contains_slash_app a b :
  str_contains "/" (a +:+ b) = str_contains "/" a || str_contains "/" b.
Proof.
  induction a as [|c a IH]; [done|].
  change (String c a +:+ b) with (String c (a +:+ b)).
  rewrite !str_contains_slash_cons, IH.
  by destruct (Ascii.eqb c "/"), (str_contains "/" a).
Qed.

Lemma string_app_cons x (a b : string) :
  String x a +:+ b = String x (a +:+ b).
Proof. reflexivity. Qed.

Lemma string_app_nil_l (a : string) : "" +:+ a = a.
Proof. reflexivity. Qed.

Lemma string_app_assoc (a b c : string) : (a +:+ b) +:+ c = a +:+ (b +:+ c).
Proof.
  induction a as [|x a IH]; [done|]. by rewrite !string_app_cons, IH.
Qed.

Lemma string_app_nil_r (a : string) : a +:+ "" = a.
Proof.
  induction a as [|x a IH]; [done|]. by rewrite string_app_cons, IH.
Qed.

Lemma last_component_spec s acc :
  str_contains "/" acc = false →
  str_contains "/" (last_component acc s) = false ∧
  ∃ pre, acc +:+ s = pre +:+ last_component acc s ∧
         (pre = "" ∨ ∃ pre', pre = pre' +:+ "/").
Proof.
  revert acc. induction s as [|c s IH]; intros acc Hacc.
  - split; [done|]. exists "". rewrite string_app_nil_r. auto.
  - cbn [last_component]. destruct (Ascii.eqb_spec c "/") as [->|Hc].
    + destruct (IH "" eq_refl) as (Hno & pre & Hpre & Hend).
      rewrite string_app_nil_l in Hpre.
      split; [done|]. exists (acc +:+ "/" +:+ pre). split.
      * rewrite !string_app_assoc, string_app_cons, string_app_nil_l.
        by rewrite <- Hpre.
      * right. destruct Hend as [->|[pre' ->]].
        -- exists acc. by rewrite string_app_nil_r.
        -- exists (acc +:+ "/" +:+ pre').
           by rewrite !string_app_assoc.
    + destruct (IH (acc +:+ String c "")) as (Hno & pre & Hpre & Hend).
      { rewrite str_contains_slash_app, Hacc, str_contains_slash_cons.
        simpl. by apply Ascii.eqb_neq in Hc as ->. }
      split; [done|]. exists pre. split; [|done].
      rewrite <- Hpre. by rewrite string_app_assoc.
Qed.

(** X1: [s.split('/')[-1]] keeps what follows the last slash: the result
    has no slash, the string is a prefix followed by the result, and the
    prefix is empty or ends with a slash. So a name without a slash is
    found again behind any directory. *)
Theorem split_slash_last_spec :
  (∀ s, str_contains "/" (split_slash_last s) = false ∧
        ∃ pre, s = pre +:+ split_slash_last s ∧
               (pre = "" ∨ ∃ pre', pre = pre' +:+ "/")) ∧
  (∀ dir name, str_contains "/" name = false →
               split_slash_last (dir +:+ "/" +:+ name) = name ∧
               split_slash_last name = name).
Proof.
  assert (Hspec : ∀ s, str_contains "/" (split_slash_last s) = false ∧
            ∃ pre, s = pre +:+ split_slash_last s ∧
                   (pre = "" ∨ ∃ pre', pre = pre' +:+ "/")).
  { intros s. apply (last_component_spec s "" eq_refl). }
  assert (Hcons : ∀ b, "/" +:+ b = String "/" b) by done.
  assert (Hslash : ∀ a b, str_contains "/" (a +:+ String "/" b) = true).
  { intros a b. rewrite str_contains_slash_app, str_contains_slash_cons.
    simpl. apply orb_true_r. }
  assert (Hsuffix : ∀ a b c d,
            str_contains "/" b = false → str_contains "/" d = false →
            a +:+ String "/" b = c +:+ String "/" d → b = d).
  { intros a. induction a as [|x a IH]; intros b c d Hb Hd Heq.
    - destruct c as [|y c].
      + by injection Heq.
      + rewrite string_app_nil_l, string_app_cons in Heq.
        injection Heq as <- Heq. rewrite Heq, Hslash in Hb. done.
    - destruct c as [|y c].
      + rewrite string_app_nil_l, string_app_cons in Heq.
        injection Heq as -> Heq. rewrite <- Heq, Hslash in Hd. done.
      + rewrite !string_app_cons in Heq.
        injection Heq as _ Heq. by apply (IH b c d). }
  assert (Hid : ∀ name, str_contains "/" name = false →
                        split_slash_last name = name).
  { intros name Hname.
    destruct (Hspec name) as (Hno & pre & Hpre & [->|[pre' ->]]).
    - by rewrite Hpre at 2.
    - rewrite Hpre, string_app_assoc, Hcons, Hslash in Hname. done. }
  split; [exact Hspec|]. intros dir name Hname. split; [|by apply Hid].
  destruct (Hspec (dir +:+ "/" +:+ name)) as (Hno & pre & Hpre & Hend).
  destruct Hend as [->|[pre' ->]].
  - rewrite string_app_nil_l in Hpre.
    rewrite <- Hpre, Hcons, Hslash in Hno. done.
  - rewrite string_app_assoc, !Hcons in Hpre. symmetry.
    by apply (Hsuffix dir name pre' _).
Qed.

(** ** The value index *)

Lemma omap_snoc {A B} (f : A → option B) (l : list A) (a : A) :
  omap f (l ++ [a]) = omap f l ++ option_list (f a).
Proof. rewrite omap_app. simpl. by destruct (f a). Qed.

(** One result record goes to the raw list, and to the typed list of the
    branch taken, if any. *)
Lemma index_result_reads pv r :
  index_result pv r =
    mk_page_values (pv_filename pv)
      (pv_rectangles pv ++ option_list (as_rectangle r))
      (pv_normalized_values pv ++ option_list (as_value r))
      (pv_zone_codes pv ++ option_list (as_zone r))
      (pv_units pv ++ option_list (as_unit r))
      (pv_qualifiers pv) (pv_notes pv) (pv_all_results pv ++ [r]).
Proof.
  destruct pv as [f rs vs zs us qs ns all].
  unfold index_result, as_rectangle, as_value, as_zone, as_unit, is_rectangle.
  cbn [pv_filename pv_rectangles pv_normalized_values pv_zone_codes pv_units
       pv_qualifiers pv_notes pv_all_results].
  destruct (opt_str_is (r_type r) "rectanglelabels");
    cbn [negb andb option_list]; rewrite ?app_nil_r; [done|].
  destruct (opt_str_is (r_from_name r) "normalized_value");
    cbn [negb andb option_list]; rewrite ?app_nil_r; [done|].
  destruct (opt_str_is (r_from_name r) "zone_code_text");
    cbn [negb andb option_list]; rewrite ?app_nil_r.
  { destruct (v_text (default empty_value (r_value r))) as [[|[|c t] ts]|];
      cbn [str_truthy option_list]; by rewrite ?app_nil_r. }
  destruct (opt_str_is (r_from_name r) "unit");
    cbn [negb andb option_list]; rewrite ?app_nil_r; [|done].
  destruct (v_choices (default empty_value (r_value r))) as [[|c cs]|];
    cbn [default from_option id option_list]; by rewrite ?app_nil_r.
Qed.

Lemma foldl_index_result_reads rs pv :
  foldl index_result pv rs =
    mk_page_values (pv_filename pv)
      (pv_rectangles pv ++ omap as_rectangle rs)
      (pv_normalized_values pv ++ omap as_value rs)
      (pv_zone_codes pv ++ omap as_zone rs)
      (pv_units pv ++ omap as_unit rs)
      (pv_qualifiers pv) (pv_notes pv) (pv_all_results pv ++ rs).
Proof.
  induction rs as [|r rs IH] using rev_ind.
  - simpl. rewrite !app_nil_r. by destruct pv.
  - rewrite foldl_app. cbn [foldl]. rewrite index_result_reads, IH.
    cbn [pv_filename pv_rectangles pv_normalized_values pv_zone_codes
         pv_units pv_qualifiers pv_notes pv_all_results].
    by rewrite !omap_snoc, !app_assoc.
Qed.

Lemma foldl_index_annotation_reads annos pv :
  foldl index_annotation pv annos =
    let rs := concat ((λ a, default [] (a_result a)) <$> annos) in
    mk_page_values (pv_filename pv)
      (pv_rectangles pv ++ omap as_rectangle rs)
      (pv_normalized_values pv ++ omap as_value rs)
      (pv_zone_codes pv ++ omap as_zone rs)
      (pv_units pv ++ omap as_unit rs)
      (pv_qualifiers pv) (pv_notes pv) (pv_all_results pv ++ rs).
Proof.
  revert pv. induction annos as [|a annos IH]; intros pv; cbv zeta.
  - simpl. rewrite !app_nil_r. by destruct pv.
  - cbn [foldl fmap list_fmap concat]. rewrite IH. cbv zeta.
    unfold index_annotation at 1 2 3 4 5 6 7 8.
    rewrite foldl_index_result_reads.
    cbn [pv_filename pv_rectangles pv_normalized_values pv_zone_codes
         pv_units pv_qualifiers pv_notes pv_all_results].
    by rewrite !omap_app, !app_assoc.
Qed.

(** X2: the page record of a task holds, in the order of the export, every
    result record in [all_results] and, in each typed list, what the
    classification makes of the records it sends there; [qualifiers] and
    [notes] stay empty. *)
Theorem index_task_reads task :
  index_task task =
    mk_page_values (task_filename task)
      (omap as_rectangle (task_results task))
      (omap as_value (task_results task))
      (omap as_zone (task_results task))
      (omap as_unit (task_results task))
      [] [] (task_results task).
Proof.
  unfold index_task. rewrite foldl_index_annotation_reads. done.
Qed.

(** At most one branch of the classification takes a record. *)
Lemma classify_exclusive r :
  length (option_list (as_rectangle r)) + length (option_list (as_value r)) +
  length (option_list (as_zone r)) + length (option_list (as_unit r)) ≤ 1.
Proof.
  unfold as_rectangle, as_value, as_zone, as_unit.
  destruct (is_rectangle r); simpl; [lia|].
  destruct (opt_str_is (r_from_name r) "normalized_value"); simpl; [lia|].
  destruct (opt_str_is (r_from_name r) "zone_code_text"); simpl.
  { repeat case_match; simpl; lia. }
  repeat case_match; simpl; lia.
Qed.

(** X3: a result record is indexed in at most one typed list, a record
    with type [rectanglelabels] only as a rectangle whatever its
    [from_name], so the typed lists of a page never hold more entries than
    its raw list. *)
Theorem index_task_typed_le task :
  let pv := index_task task in
  length (pv_rectangles pv) + length (pv_normalized_values pv) +
  length (pv_zone_codes pv) + length (pv_units pv) ≤
    length (pv_all_results pv) ∧
  (∀ r, is_rectangle r = true →
        as_value r = None ∧ as_zone r = None ∧ as_unit r = None).
Proof.
  cbv zeta. rewrite index_task_reads.
  cbn [pv_rectangles pv_normalized_values pv_zone_codes pv_units
       pv_all_results].
  split.
  - induction (task_results task) as [|r rs IH]; [done|].
    pose proof (classify_exclusive r) as Hr.
    change (r :: rs) with ([r] ++ rs). rewrite !omap_app, !length_app.
    assert (∀ B (f : ls_result → option B),
              length (omap f [r]) = length (option_list (f r))) as Hone.
    { intros B f. simpl. by destruct (f r). }
    rewrite (Hone _ as_rectangle), (Hone _ as_value), (Hone _ as_zone),
      (Hone _ as_unit).
    change (length [r]) with 1. lia.
  - intros r Hr. unfold as_value, as_zone, as_unit. by rewrite Hr.
Qed.

(** X4: the zone codes kept for a page are never the empty string. *)
Theorem index_task_zone_codes_nonempty task z :
  z ∈ pv_zone_codes (index_task task) → ze_text z ≠ "".
Proof.
  rewrite index_task_reads. cbn [pv_zone_codes].
  intros (r & _ & Hr)%list_elem_of_omap.
  unfold as_zone in Hr. repeat case_match; simplify_eq. done.
Qed.

Lemma index_task_zone_codes_nonempty_witness :
  ze_text (mk_zone_entry "R-1" 0 0) ≠ "".
Proof.
  apply (index_task_zone_codes_nonempty
           (one_page_task "page_1.png" [zone_result "R-1"; zone_result ""])).
  vm_compute. left.
Defined.

(** ** Page keys *)

Lemma extract_from_lookup_ne tasks i m key :
  (∀ j t, tasks !! j = Some t → task_page_key (i + j) t ≠ key) →
  extract_from i tasks m !! key = m !! key.
Proof.
  revert i m. induction tasks as [|t tasks IH]; intros i m Hne; simpl; [done|].
  rewrite IH.
  - apply lookup_insert_ne. specialize (Hne 0 t eq_refl).
    by rewrite Nat.add_0_r in Hne.
  - intros j t' Hj. specialize (Hne (S j) t' Hj).
    by rewrite Nat.add_succ_r in Hne.
Qed.

Lemma extract_from_lookup_last tasks i m key j t :
  tasks !! j = Some t → task_page_key (i + j) t = key →
  (∀ j' t', j < j' → tasks !! j' = Some t' →
            task_page_key (i + j') t' ≠ key) →
  extract_from i tasks m !! key = Some (index_task t).
Proof.
  revert i m j. induction tasks as [|t0 tasks IH]; intros i m j Hj Hkey Hlast;
    [done|].
  destruct j as [|j]; simpl in Hj.
  - injection Hj as ->. simpl. rewrite extract_from_lookup_ne.
    + rewrite Nat.add_0_r in Hkey. rewrite Hkey. apply lookup_insert_eq.
    + intros j' t' Hj'. rewrite Nat.add_succ_l, <- Nat.add_succ_r.
      apply Hlast; [lia|done].
  - simpl. apply (IH (S i) _ j); [done|by rewrite Nat.add_succ_l, <- Nat.add_succ_r|].
    intros j' t' Hlt Hj'. rewrite Nat.add_succ_l, <- Nat.add_succ_r.
    apply Hlast; [lia|done].
Qed.

Lemma extract_from_size tasks i m :
  size (extract_from i tasks m) ≤ size m + length tasks.
Proof.
  revert i m. induction tasks as [|t tasks IH]; intros i m; simpl; [lia|].
  etrans; [apply IH|]. rewrite map_size_insert.
  destruct (m !! task_page_key i t); simpl; lia.
Qed.

(** Every page record of the index is the record of one of the tasks. *)
Lemma extract_from_values tasks i m key pv :
  extract_from i tasks m !! key = Some pv →
  m !! key = Some pv ∨ ∃ t, t ∈ tasks ∧ pv = index_task t.
Proof.
  revert i m. induction tasks as [|t tasks IH]; intros i m; simpl; [auto|].
  intros [Hm|(t' & Ht' & ->)]%IH.
  - destruct (decide (task_page_key i t = key)) as [<-|Hne].
    + rewrite lookup_insert_eq in Hm. injection Hm as <-.
      right. exists t. split; [by left|done].
    + rewrite lookup_insert_ne in Hm by done. by left.
  - right. exists t'. split; [by right|done].
Qed.

(** X5: when several tasks have the same page key, the index holds the
    record of the last one; a key that no task has is absent; so the index
    never has more pages than there are tasks. *)
Theorem extract_last_wins tasks key :
  (∀ j t, tasks !! j = Some t → task_page_key j t = key →
     (∀ j' t', j < j' → tasks !! j' = Some t' → task_page_key j' t' ≠ key) →
     extract_all_label_studio_values tasks !! key = Some (index_task t)) ∧
  ((∀ j t, tasks !! j = Some t → task_page_key j t ≠ key) →
     extract_all_label_studio_values tasks !! key = None) ∧
  size (extract_all_label_studio_values tasks) ≤ length tasks.
Proof.
  unfold extract_all_label_studio_values. split_and!.
  - intros j t Hj Hkey Hlast.
    by apply (extract_from_lookup_last tasks 0 ∅ key j t).
  - intros Hne. by rewrite (extract_from_lookup_ne tasks 0 ∅ key).
  - etrans; [apply extract_from_size|]. by rewrite map_size_empty.
Qed.

(** X6: tasks that name no file get the keys [page_<index>], which differ
    from one task to the next: such tasks never overwrite one another. *)
Theorem synthetic_page_keys_differ i j t t' :
  task_filename t = "" → task_filename t' = "" →
  task_page_key i t = task_page_key j t' → i = j.
Proof.
  unfold task_page_key. intros -> ->. simpl.
  intros Heq. apply (inj (String.append "page_")) in Heq.
  by apply (inj pretty) in Heq.
Qed.

Lemma synthetic_page_keys_differ_witness : 4 = 4.
Proof.
  apply (synthetic_page_keys_differ 4 4 (mk_ls_task None None None)
           (mk_ls_task (Some "") (Some "") (Some [])));
    vm_compute; reflexivity.
Defined.

(** X7: every zone code the index holds, on any page, is a non-empty
    string, and every page of the index is the record of one of the
    tasks. *)
Theorem extract_pages tasks key pv :
  extract_all_label_studio_values tasks !! key = Some pv →
  (∃ t, t ∈ tasks ∧ pv = index_task t) ∧
  (∀ z, z ∈ pv_zone_codes pv → ze_text z ≠ "").
Proof.
  intros [Hm|(t & Ht & ->)]%extract_from_values; [done|].
  split; [by exists t|].
  intros z. rewrite index_task_reads. cbn [pv_zone_codes].
  intros (r & _ & Hr)%list_elem_of_omap.
  unfold as_zone in Hr. repeat case_match; simplify_eq. done.
Qed.

Lemma extract_pages_witness :
  (∃ t, t ∈ scenario_tasks ∧
        index_task (one_page_task "upload/page_1.png"
          [zone_result "R-1"; zone_result "R-1";
           number_result (Some 5000%Z)]) = index_task t) ∧
  (∀ z, z ∈ pv_zone_codes
              (index_task (one_page_task "upload/page_1.png"
                 [zone_result "R-1"; zone_result "R-1";
                  number_result (Some 5000%Z)])) →
        ze_text z ≠ "").
Proof.
  apply (extract_pages scenario_tasks "page_1.png").
  vm_compute. reflexivity.
Defined.

(** ** The shape of the fused annotations *)

(** The dispatch leaves the copied fields alone. *)
Lemma dispatch_frame page name k zones m :
  let m' := (dispatch page name k zones m).1 in
  ma_id m' = ma_id m ∧ ma_image_id m' = ma_image_id m ∧
  ma_image_filename m' = ma_image_filename m ∧
  ma_category m' = ma_category m ∧ ma_bbox m' = ma_bbox m ∧
  ma_bbox_area m' = ma_bbox_area m.
Proof.
  unfold dispatch, assign_zone, assign_unit, assign_value. cbv zeta.
  repeat (case_match; simpl; try done).
Qed.

(** Which optional fields the dispatch can fill, by category. *)
Lemma dispatch_shape page name k zones env anno w h :
  let m := (dispatch page name k zones (base_anno env anno name w h)).1 in
  (ma_zone_code m ≠ None →
     name = "ZONE_CODE" ∧ ma_normalized_value m = None ∧
     ma_unit m = None ∧ ma_has_values m = true) ∧
  (ma_normalized_value m ≠ None ∨ ma_unit m ≠ None →
     is_numeric_category name = true ∧ ma_zone_code m = None) ∧
  (ma_normalized_value m ≠ None → ma_has_values m = true).
Proof.
  unfold dispatch. cbv zeta.
  destruct (String.eqb_spec name "ZONE_CODE") as [->|Hne].
  - unfold assign_zone. destruct (first_new_zone _ _); simpl; naive_solver.
  - destruct (is_numeric_category name) eqn:Hnum; simpl; [|naive_solver].
    unfold assign_unit, assign_value.
    repeat (case_match; simpl; try naive_solver).
Qed.

(** From a fused annotation back to the annotation it was made from. *)
Lemma fused_elem_at images cats annos vbp fused m :
  merge_with_coco (full_export images cats annos) vbp = inr fused →
  m ∈ fused →
  let env := env_of images cats vbp in
  ∃ k anno name w h,
    annos !! k = Some anno ∧ fused !! k = Some m ∧
    category_id_to_name env !! an_category_id anno = Some name ∧
    an_bbox anno !! 2 = Some w ∧ an_bbox anno !! 3 = Some h ∧
    m = (dispatch (page_of env anno) name k (assigned_zones (take k fused))
           (base_anno env anno name w h)).1.
Proof.
  intros Hrun [k Hk]%list_elem_of_lookup env.
  destruct (lookup_lt_is_Some_2 annos k) as [anno Hanno].
  { rewrite <- (merge_with_coco_length _ _ _ _ _ Hrun).
    by eapply lookup_lt_Some. }
  destruct (merge_with_coco_at _ _ _ _ _ _ _ Hrun Hanno)
    as (name & w & h & Hname & Hw & Hh & Hm).
  exists k, anno, name, w, h. split_and!; try done.
  rewrite Hk in Hm. by injection Hm.
Qed.

(** X8: the fusion returns one annotation per annotation of the export,
    in the same order, with the identifier, the image identifier and the
    box copied, the category name read from the category table, the area
    [bbox[2] * bbox[3]] and the base name of the image file (the empty
    string when the image is not in the image table). *)
Theorem fused_frame images cats annos vbp fused k anno :
  merge_with_coco (full_export images cats annos) vbp = inr fused →
  annos !! k = Some anno →
  length fused = length annos ∧
  ∃ m name w h,
    fused !! k = Some m ∧
    build_category_table cats !! an_category_id anno = Some name ∧
    an_bbox anno !! 2 = Some w ∧ an_bbox anno !! 3 = Some h ∧
    ma_id m = an_id anno ∧ ma_image_id m = an_image_id anno ∧
    ma_category m = name ∧ ma_bbox m = an_bbox anno ∧
    ma_bbox_area m = (w * h)%Z ∧
    ma_image_filename m =
      default "" (build_image_table images !! an_image_id anno).
Proof.
  intros Hrun Hk. split; [by eapply merge_with_coco_length|].
  destruct (merge_with_coco_at _ _ _ _ _ _ _ Hrun Hk)
    as (name & w & h & Hname & Hw & Hh & Hm).
  eexists _, name, w, h. split; [exact Hm|].
  destruct (dispatch_frame (page_of (env_of images cats vbp) anno) name k
              (assigned_zones (take k fused))
              (base_anno (env_of images cats vbp) anno name w h))
    as (-> & -> & -> & -> & -> & ->).
  by split_and!.
Qed.

Lemma fused_frame_witness :
  length scenario_fused = length scenario_annotations ∧
  ∃ m name w h,
    scenario_fused !! 2 = Some m ∧
    build_category_table scenario_categories !! 2%Z = Some name ∧
    [10; 70; 100; 20]%Z !! 2 = Some w ∧ [10; 70; 100; 20]%Z !! 3 = Some h ∧
    ma_id m = 3%Z ∧ ma_image_id m = 1%Z ∧
    ma_category m = name ∧ ma_bbox m = [10; 70; 100; 20]%Z ∧
    ma_bbox_area m = (w * h)%Z ∧
    ma_image_filename m =
      default "" (build_image_table scenario_images !! 1%Z).
Proof.
  apply (fused_frame scenario_images scenario_categories scenario_annotations
           (extract_all_label_studio_values scenario_tasks) scenario_fused 2
           (mk_coco_annotation 3 1 2 [10; 70; 100; 20]%Z));
    vm_compute; reflexivity.
Defined.

(** X9: a fused annotation never carries both a zone code and a value or
    a unit: a zone code is only given to a [ZONE_CODE] annotation, a value
    or a unit only to an annotation of a numeric category, and whoever has
    a zone code or a value has [has_values = true]. *)
Theorem fused_shape images cats annos vbp fused m :
  merge_with_coco (full_export images cats annos) vbp = inr fused →
  m ∈ fused →
  (ma_zone_code m ≠ None →
     ma_category m = "ZONE_CODE" ∧ ma_normalized_value m = None ∧
     ma_unit m = None ∧ ma_has_values m = true) ∧
  (ma_normalized_value m ≠ None ∨ ma_unit m ≠ None →
     is_numeric_category (ma_category m) = true ∧ ma_zone_code m = None) ∧
  (ma_normalized_value m ≠ None → ma_has_values m = true).
Proof.
  intros Hrun Hm.
  destruct (fused_elem_at _ _ _ _ _ _ Hrun Hm)
    as (k & anno & name & w & h & _ & _ & _ & _ & _ & ->).
  destruct (dispatch_frame (page_of (env_of images cats vbp) anno) name k
              (assigned_zones (take k fused))
              (base_anno (env_of images cats vbp) anno name w h))
    as (_ & _ & _ & -> & _).
  apply dispatch_shape.
Qed.

Lemma fused_shape_witness :
  (ma_zone_code (zoned 1 "R-1") ≠ None →
     ma_category (zoned 1 "R-1") = "ZONE_CODE" ∧
     ma_normalized_value (zoned 1 "R-1") = None ∧
     ma_unit (zoned 1 "R-1") = None ∧ ma_has_values (zoned 1 "R-1") = true) ∧
  (ma_normalized_value (zoned 1 "R-1") ≠ None ∨
   ma_unit (zoned 1 "R-1") ≠ None →
     is_numeric_category (ma_category (zoned 1 "R-1")) = true ∧
     ma_zone_code (zoned 1 "R-1") = None) ∧
  (ma_normalized_value (zoned 1 "R-1") ≠ None →
     ma_has_values (zoned 1 "R-1") = true).
Proof.
  apply (fused_shape scenario_images scenario_categories scenario_annotations
           (extract_all_label_studio_values scenario_tasks) scenario_fused
           (zoned 1 "R-1")).
  - vm_compute. reflexivity.
  - by left.
Defined.

(** X10: an annotation whose image is not in the image table, or whose
    file has no page in the value index, is still fused, with no value, no
    unit, no zone code and [has_values = false]. *)
Theorem fused_without_page images cats annos vbp fused k anno :
  merge_with_coco (full_export images cats annos) vbp = inr fused →
  annos !! k = Some anno →
  vbp !! default "" (build_image_table images !! an_image_id anno) = None →
  ∃ m, fused !! k = Some m ∧
       ma_normalized_value m = None ∧ ma_unit m = None ∧
       ma_zone_code m = None ∧ ma_has_values m = false.
Proof.
  intros Hrun Hk Hpage.
  destruct (merge_with_coco_at _ _ _ _ _ _ _ Hrun Hk)
    as (name & w & h & _ & _ & _ & Hm).
  eexists. split; [exact Hm|].
  unfold page_of. cbn [image_id_to_filename values_by_page env_of].
  rewrite Hpage. cbn [default from_option id].
  unfold dispatch, assign_zone, assign_unit, assign_value.
  repeat (case_match; simpl; try done).
Qed.

Lemma fused_without_page_witness :
  ∃ m, [mk_merged_anno 1 9 "" "ZONE_CODE" [10; 10; 100; 20]%Z 2000
          None None None false] !! 0 = Some m ∧
       ma_normalized_value m = None ∧ ma_unit m = None ∧
       ma_zone_code m = None ∧ ma_has_values m = false.
Proof.
  apply (fused_without_page scenario_images scenario_categories
           [mk_coco_annotation 1 9 1 [10; 10; 100; 20]%Z]
           (extract_all_label_studio_values scenario_tasks) _ 0
           (mk_coco_annotation 1 9 1 [10; 10; 100; 20]%Z));
    vm_compute; reflexivity.
Defined.

(** ** Units *)

Lemma assign_value_unit page k m :
  ma_unit (assign_value page k m) = ma_unit m.
Proof. unfold assign_value. by repeat case_match. Qed.

Lemma assign_unit_numeric page name m :
  is_numeric_category name = true →
  ma_unit (assign_unit page name m) =
    match pv_units page with
    | [] => ma_unit m
    | _ :: _ => Some (unit_of_category name)
    end.
Proof.
  intros Hnum. apply bool_decide_eq_true in Hnum.
  unfold assign_unit. destruct (pv_units page); [done|].
  unfold numeric_categories in Hnum.
  repeat (apply elem_of_cons in Hnum as [->|Hnum]; [reflexivity|]).
  by apply elem_of_nil in Hnum.
Qed.

(** X11: an annotation of a numeric category gets a unit exactly when its
    page has a unit choice, and the unit depends on the category name
    alone, not on the choice recorded: ["sqft"] for [MIN_LOT_AREA],
    ["percent"] for [MAX_LOT_COVERAGE], ["ft"] for the five others. *)
Theorem fused_unit images cats annos vbp fused k anno name :
  merge_with_coco (full_export images cats annos) vbp = inr fused →
  annos !! k = Some anno →
  category_id_to_name (env_of images cats vbp) !! an_category_id anno
    = Some name →
  is_numeric_category name = true →
  ∃ m, fused !! k = Some m ∧
       ma_unit m =
         match pv_units (page_of (env_of images cats vbp) anno) with
         | [] => None
         | _ :: _ => Some (unit_of_category name)
         end.
Proof.
  intros Hrun Hk Hname Hnum.
  destruct (merge_with_coco_at _ _ _ _ _ _ _ Hrun Hk)
    as (name' & w & h & Hname' & _ & _ & Hm).
  rewrite Hname in Hname'. injection Hname' as <-.
  eexists. split; [exact Hm|].
  unfold dispatch. rewrite (numeric_not_zone _ Hnum), Hnum. cbn [fst].
  rewrite (assign_unit_numeric _ _ _ Hnum), assign_value_unit. done.
Qed.

Lemma fused_unit_witness :
  ∃ m, [mk_merged_anno 3 1 "page_1.png" "MIN_LOT_AREA" [10; 70; 100; 20]%Z
          2000 (Some 5000%Z) (Some "sqft") None true;
        mk_merged_anno 1 1 "page_1.png" "ZONE_CODE" [10; 10; 100; 20]%Z
          2000 None None (Some "R-1") true;
        mk_merged_anno 2 1 "page_1.png" "ZONE_CODE" [10; 40; 100; 20]%Z
          2000 None None None false] !! 0 = Some m ∧
       ma_unit m =
         match pv_units
                 (page_of
                    (env_of scenario_images scenario_categories
                       (extract_all_label_studio_values
                          scenario_tasks_with_unit))
                    (mk_coco_annotation 3 1 2 [10; 70; 100; 20]%Z)) with
         | [] => None
         | _ :: _ => Some (unit_of_category "MIN_LOT_AREA")
         end.
Proof.
  apply (fused_unit scenario_images scenario_categories
           scenario_annotations_area_first
           (extract_all_label_studio_values scenario_tasks_with_unit));
    vm_compute; reflexivity.
Defined.

(** ** The two tables *)

Section Tables.
Context {A V : Type} (key : A → Z) (val : A → V).

Lemma table_lookup_ne (l : list A) (m : gmap Z V) k :
  (∀ x, x ∈ l → key x ≠ k) →
  foldl (λ d x, <[key x := val x]> d) m l !! k = m !! k.
Proof.
  revert m. induction l as [|x l IH]; intros m Hne; simpl; [done|].
  rewrite IH.
  - apply lookup_insert_ne, Hne. by left.
  - intros y Hy. apply Hne. by right.
Qed.

Lemma table_lookup_last (l : list A) (m : gmap Z V) j x :
  l !! j = Some x →
  (∀ j' x', j < j' → l !! j' = Some x' → key x' ≠ key x) →
  foldl (λ d x, <[key x := val x]> d) m l !! key x = Some (val x).
Proof.
  revert m j. induction l as [|y l IH]; intros m j Hj Hlast; [done|].
  destruct j as [|j]; simpl in Hj.
  - injection Hj as ->. simpl. rewrite table_lookup_ne.
    + apply lookup_insert_eq.
    + intros x' [j' Hj']%list_elem_of_lookup.
      apply (Hlast (S j') x'); [lia|done].
  - simpl. apply (IH _ j); [done|].
    intros j' x' Hlt Hj'. apply (Hlast (S j') x'); [lia|done].
Qed.
End Tables.

(** X12: the image table maps an identifier to the base name of the last
    image of the export with that identifier, the category table to the
    name of the last category with it; an identifier that no entry has is
    absent. *)
Theorem tables_last_wins images cats :
  (∀ j img, images !! j = Some img →
     (∀ j' img', j < j' → images !! j' = Some img' →
                 img_id img' ≠ img_id img) →
     build_image_table images !! img_id img =
       Some (split_slash_last (img_file_name img))) ∧
  (∀ i, (∀ img, img ∈ images → img_id img ≠ i) →
        build_image_table images !! i = None) ∧
  (∀ j cat, cats !! j = Some cat →
     (∀ j' cat', j < j' → cats !! j' = Some cat' →
                 cat_id cat' ≠ cat_id cat) →
     build_category_table cats !! cat_id cat = Some (cat_name cat)) ∧
  (∀ i, (∀ cat, cat ∈ cats → cat_id cat ≠ i) →
        build_category_table cats !! i = None).
Proof.
  unfold build_image_table, build_category_table. split_and!.
  - intros j img Hj Hlast.
    by apply (table_lookup_last img_id
                (λ img, split_slash_last (img_file_name img)) images ∅ j).
  - intros i Hne.
    by rewrite (table_lookup_ne img_id
                  (λ img, split_slash_last (img_file_name img))).
  - intros j cat Hj Hlast.
    by apply (table_lookup_last cat_id cat_name cats ∅ j).
  - intros i Hne. by rewrite (table_lookup_ne cat_id cat_name).
Qed.

(** ** The counts of the fusion *)

Lemma merge_loop_run images cats annos vbp fused zones :
  merge_loop (env_of images cats vbp) annos ([], ∅) = inr (fused, zones) →
  merge_with_coco (full_export images cats annos) vbp = inr fused.
Proof.
  intros Hloop. unfold merge_with_coco, full_export. simpl.
  unfold env_of in Hloop. by rewrite Hloop.
Qed.

(** The zone code of a fused annotation is new, and a text of its page. *)
Lemma fused_zone_new images cats annos vbp fused k m t :
  merge_with_coco (full_export images cats annos) vbp = inr fused →
  fused !! k = Some m → ma_zone_code m = Some t →
  (t ∉ assigned_zones (take k fused)) ∧
  ∃ anno e, annos !! k = Some anno ∧ ze_text e = t ∧
            e ∈ pv_zone_codes (page_of (env_of images cats vbp) anno).
Proof.
  intros Hrun Hm Hz.
  destruct (lookup_lt_is_Some_2 annos k) as [anno Hanno].
  { rewrite <- (merge_with_coco_length _ _ _ _ _ Hrun).
    by eapply lookup_lt_Some. }
  destruct (merge_with_coco_at _ _ _ _ _ _ _ Hrun Hanno)
    as (name & w & h & _ & _ & _ & Hm').
  rewrite Hm in Hm'. injection Hm' as ->.
  destruct (dispatch_zone_code (page_of (env_of images cats vbp) anno) name k
              (assigned_zones (take k fused))
              (base_anno (env_of images cats vbp) anno name w h) eq_refl)
    as [Hcode _].
  rewrite Hz in Hcode. destruct (String.eqb name "ZONE_CODE"); [|done].
  symmetry in Hcode.
  apply first_new_zone_Some in Hcode as (l1 & e & l2 & Hl & He & Hnew & _).
  split; [done|]. exists anno, e. split_and!; [done..|].
  rewrite Hl. apply elem_of_app. right. by left.
Qed.

Lemma fused_zones_NoDup images cats annos vbp fused :
  merge_with_coco (full_export images cats annos) vbp = inr fused →
  NoDup (omap ma_zone_code fused).
Proof.
  intros Hrun.
  assert (∀ k, k ≤ length fused → NoDup (omap ma_zone_code (take k fused)))
    as Hk.
  { induction k as [|k IH]; intros Hle; [rewrite take_0; constructor|].
    destruct (lookup_lt_is_Some_2 fused k) as [m Hm]; [lia|].
    rewrite (take_S_r _ _ _ Hm), omap_snoc.
    destruct (ma_zone_code m) as [t|] eqn:Hz; simpl.
    - apply NoDup_app. split_and!; [apply IH; lia| |apply NoDup_singleton].
      intros x Hx ->%list_elem_of_singleton.
      destruct (fused_zone_new _ _ _ _ _ _ _ _ Hrun Hm Hz) as [Hnew _].
      apply Hnew. unfold assigned_zones. by apply elem_of_list_to_set.
    - rewrite app_nil_r. apply IH. lia. }
  specialize (Hk (length fused) (le_n _)). by rewrite firstn_all in Hk.
Qed.

Lemma filter_length_le {A} (P Q : A → Prop) `{∀ x, Decision (P x)}
    `{∀ x, Decision (Q x)} (l : list A) :
  (∀ x, x ∈ l → P x → Q x) →
  length (filter P l) ≤ length (filter Q l).
Proof.
  induction l as [|x l IH]; intros HPQ; [done|].
  rewrite !filter_cons.
  assert (length (filter P l) ≤ length (filter Q l)) as Hle.
  { apply IH. intros y Hy. apply HPQ. by right. }
  destruct (decide (P x)) as [HP|HP].
  - rewrite decide_True by (apply HPQ; [by left|done]). simpl. lia.
  - destruct (decide (Q x)); simpl; lia.
Qed.

Lemma count_zone_codes_omap (l : list merged_anno) :
  (∀ m t, m ∈ l → ma_zone_code m = Some t → t ≠ "") →
  count_zone_codes l = length (omap ma_zone_code l).
Proof.
  unfold count_zone_codes. induction l as [|m l IH]; intros Hne; [done|].
  rewrite filter_cons. simpl.
  assert (length (filter (λ a, opt_str_truthy (ma_zone_code a)) l) =
          length (omap ma_zone_code l)) as Hl.
  { apply IH. intros m' t Hm'. apply Hne. by right. }
  destruct (ma_zone_code m) as [t|] eqn:Hz; simpl.
  - assert (t ≠ "") as Ht by (apply (Hne m t); [by left|done]).
    destruct t as [|c t]; [done|]. simpl. f_equal. exact Hl.
  - exact Hl.
Qed.

(** X13: after a fusion on a value index built by the indexer, the size of
    the registry [zones_found] is the number of fused annotations with a
    zone code (the two zone counts the function prints are equal), and
    that number is at most the number of annotations with
    [has_values = true]. *)
Theorem fusion_counts images cats annos tasks fused zones :
  merge_loop
    (env_of images cats (extract_all_label_studio_values tasks))
    annos ([], ∅) = inr (fused, zones) →
  size zones = count_zone_codes fused ∧
  count_zone_codes fused ≤ count_with_values fused ∧
  count_with_values fused ≤ length annos.
Proof.
  intros Hloop.
  pose proof (merge_loop_run _ _ _ _ _ _ Hloop) as Hrun.
  pose proof (merge_loop_inr _ _ _ _ _ _ Hloop eq_refl) as [-> _].
  split_and!.
  - unfold assigned_zones.
    rewrite size_list_to_set by (by eapply fused_zones_NoDup).
    symmetry. apply count_zone_codes_omap.
    intros m t [k Hk]%list_elem_of_lookup Hz.
    destruct (fused_zone_new _ _ _ _ _ _ _ _ Hrun Hk Hz)
      as (_ & anno & e & _ & <- & He).
    unfold page_of in He. cbn [values_by_page env_of] in He.
    destruct (extract_all_label_studio_values tasks !! _) as [pv|] eqn:Hpv;
      cbn [default from_option id] in He.
    + destruct (extract_from_values _ _ _ _ _ Hpv) as [?|(t & _ & ->)];
        [done|].
      revert He. rewrite index_task_reads. cbn [pv_zone_codes].
      intros (r & _ & Hr)%list_elem_of_omap.
      unfold as_zone in Hr. repeat case_match; simplify_eq. done.
    + by apply elem_of_nil in He.
  - unfold count_zone_codes, count_with_values.
    apply filter_length_le. intros m Hm Hz.
    destruct (fused_elem_at _ _ _ _ _ _ Hrun Hm)
      as (k & anno & name & w & h & _ & _ & _ & _ & _ & ->).
    destruct (dispatch_shape (page_of
                (env_of images cats (extract_all_label_studio_values tasks))
                anno) name k (assigned_zones (take k fused))
                (env_of images cats (extract_all_label_studio_values tasks))
                anno w h) as (Hzone & _).
    destruct (ma_zone_code _) eqn:Hcode; [|done].
    destruct Hzone as (_ & _ & _ & ->); done.
  - unfold count_with_values.
    rewrite <- (merge_with_coco_length _ _ _ _ _ Hrun).
    apply length_filter.
Qed.

Lemma fusion_counts_witness :
  size (assigned_zones scenario_fused) = count_zone_codes scenario_fused ∧
  count_zone_codes scenario_fused ≤ count_with_values scenario_fused ∧
  count_with_values scenario_fused ≤ length scenario_annotations.
Proof.
  apply (fusion_counts scenario_images scenario_categories
           scenario_annotations scenario_tasks).
  vm_compute. reflexivity.
Defined.

(** ** When the fusion returns *)

Lemma merge_loop_inr_Forall env annos st st' :
  merge_loop env annos st = inr st' →
  Forall (λ a, is_Some (category_id_to_name env !! an_category_id a) ∧
               4 ≤ length (an_bbox a)) annos.
Proof.
  revert st. induction annos as [|a annos IH]; intros [merged zones];
    simpl; [by constructor|].
  destruct (merge_step env (merged, zones) a) as [e|st1] eqn:Hst;
    simpl; [done|].
  intros Hloop. constructor; [|by eapply IH].
  apply merge_step_inr in Hst as (name & w & h & Hname & _ & Hh & _).
  split; [by exists name|]. apply lookup_lt_Some in Hh. lia.
Qed.

(** X14: the fusion returns exactly when the export has its three
    top-level keys, every annotation's category identifier is in the
    category table and every box has at least four entries; any other
    irregularity (an unknown image, a page without values) is
    tolerated. *)
Theorem merge_with_coco_returns_iff coco_data vbp :
  (∃ fused, merge_with_coco coco_data vbp = inr fused) ↔
  ∃ images cats annos,
    coco_data = full_export images cats annos ∧
    Forall (λ a, is_Some (build_category_table cats !! an_category_id a) ∧
                 4 ≤ length (an_bbox a)) annos.
Proof.
  split.
  - intros [fused Hrun].
    destruct coco_data as [[images|] [cats|] [annos|]]; try done.
    exists images, cats, annos. split; [done|].
    destruct (merge_with_coco_inr _ _ _ _ _ Hrun) as [zones Hloop].
    by apply merge_loop_inr_Forall in Hloop.
  - intros (images & cats & annos & -> & Hall).
    destruct (merge_with_coco_completes images cats annos vbp Hall)
      as (fused & Hrun & _).
    by exists fused.
Qed.

(** ** More on the dataset builder *)

(** An annotation of the fusion that the builder takes for high quality
    has its flag set. *)
Lemma high_quality_flag images cats annos vbp fused m :
  merge_with_coco (full_export images cats annos) vbp = inr fused →
  m ∈ fused → is_high_quality m = true → ma_has_values m = true.
Proof.
  intros Hrun Hm Hhq.
  destruct (fused_elem_at _ _ _ _ _ _ Hrun Hm)
    as (k & anno & name & w & h & _ & _ & _ & _ & _ & ->).
  destruct (dispatch_shape (page_of (env_of images cats vbp) anno) name k
              (assigned_zones (take k fused)) (env_of images cats vbp)
              anno w h) as (Hzone & _ & Hvalue).
  unfold is_high_quality in Hhq. apply orb_true_iff in Hhq as [Hz|Hv].
  - destruct (ma_zone_code _); [|done]. by destruct Hzone as (_ & _ & _ & ->).
  - destruct (ma_normalized_value _); [|done]. by apply Hvalue.
Qed.

Section BuilderMore.
Context {BG : BitGenerator}.

Lemma dataset_of_all annos :
  json_train (dataset_of annos).1 ++ json_validation (dataset_of annos).1
    ≡ₚ annos.
Proof.
  destruct (dataset_of_lists annos) as (_ & _ & Hhq & Hmq & Htr & Hva & _).
  rewrite Htr, Hva, split_Permutation, Hhq, Hmq.
  apply filter_app_complement.
Qed.

Lemma dataset_of_nil :
  dataset_of [] =
    (mk_dataset_json [] [] [] [] (mk_metadata 0 0 ∅), bitgen_seed 42).
Proof. reflexivity. Qed.
End BuilderMore.

(** X15: on the output of the fusion, every annotation of the
    [high_quality] tier has [has_values = true], so the [with_values]
    count of the metadata is at most the number of annotations whose flag
    is set. *)
Theorem high_quality_has_values {BG : BitGenerator} (st : pystate)
    images cats annos vbp fused :
  merge_with_coco (full_export images cats annos) vbp = inr fused →
  (∀ m, m ∈ json_high_quality (built_dataset st fused) →
        ma_has_values m = true) ∧
  with_values (json_metadata (built_dataset st fused)) ≤
    count_with_values fused.
Proof.
  intros Hrun. rewrite built_dataset_eq.
  destruct (dataset_of_lists fused) as (_ & _ & Hhq & _ & _ & _ & Hmeta).
  split.
  - intros m Hm. apply (dataset_of_tiers fused m) in Hm as [Hm Hq].
    by eapply high_quality_flag.
  - rewrite Hmeta. cbn [with_values]. rewrite Hhq. unfold count_with_values.
    apply filter_length_le. intros m Hm Hq.
    apply Is_true_true. eapply high_quality_flag; [done..|].
    by apply Is_true_true.
Qed.

Lemma high_quality_has_values_witness :
  (∀ m, m ∈ json_high_quality (built_dataset lcg_state scenario_fused) →
        ma_has_values m = true) ∧
  with_values (json_metadata (built_dataset lcg_state scenario_fused)) ≤
    count_with_values scenario_fused.
Proof.
  apply (high_quality_has_values (BG := lcg_bitgen) lcg_state
           scenario_images scenario_categories scenario_annotations
           (extract_all_label_studio_values scenario_tasks)).
  vm_compute. reflexivity.
Defined.

Lemma drop_floor_elem (l : list merged_anno) :
  l ≠ [] → ∃ a, a ∈ drop (length l * 4 / 5) l.
Proof.
  intros Hne.
  assert (length l * 4 / 5 < length l) as Hlt.
  { destruct l; [done|]. apply Nat.Div0.div_lt_upper_bound. simpl. lia. }
  destruct (drop (length l * 4 / 5) l) as [|a l'] eqn:Hdrop.
  - assert (length (drop (length l * 4 / 5) l) = 0) as Hzero
      by (by rewrite Hdrop).
    rewrite length_drop in Hzero. lia.
  - exists a. by left.
Qed.

(** X16: for fewer than [2^50] annotations, the training set has
    [floor(0.8 |hq|) + floor(0.8 |mq|)] annotations, at most four fifths
    of the input; each tier that is not empty has an annotation in the
    validation set, so the validation set is empty only for an empty
    input. *)
Theorem split_sizes {BG : BitGenerator} (st : pystate)
    (annos : list merged_anno) :
  (Z.of_nat (length annos) < 2 ^ 50)%Z →
  length (json_train (built_dataset st annos)) =
    length (json_high_quality (built_dataset st annos)) * 4 / 5 +
    length (json_medium_quality (built_dataset st annos)) * 4 / 5 ∧
  5 * length (json_train (built_dataset st annos)) ≤ 4 * length annos ∧
  (json_high_quality (built_dataset st annos) ≠ [] →
     ∃ a, a ∈ json_high_quality (built_dataset st annos) ∧
          a ∈ json_validation (built_dataset st annos)) ∧
  (json_medium_quality (built_dataset st annos) ≠ [] →
     ∃ a, a ∈ json_medium_quality (built_dataset st annos) ∧
          a ∈ json_validation (built_dataset st annos)) ∧
  (annos ≠ [] → json_validation (built_dataset st annos) ≠ []).
Proof.
  intros Hlen. rewrite built_dataset_eq.
  destruct (dataset_of_lists annos) as (_ & _ & Hhq & Hmq & Htr & Hva & _).
  set (d := (dataset_of annos).1) in *.
  set (hq := json_high_quality d) in *.
  set (mq := json_medium_quality d) in *.
  assert (Hall : length hq + length mq = length annos).
  { rewrite <- length_app. apply Permutation_length.
    rewrite Hhq, Hmq. apply filter_app_complement. }
  rewrite !split_index_floor in Htr, Hva by lia.
  assert (Hs1 : length hq * 4 / 5 ≤ length hq)
    by (apply Nat.Div0.div_le_upper_bound; lia).
  assert (Hs2 : length mq * 4 / 5 ≤ length mq)
    by (apply Nat.Div0.div_le_upper_bound; lia).
  assert (Htrain : length (json_train d) =
                   length hq * 4 / 5 + length mq * 4 / 5).
  { rewrite (Permutation_length Htr), length_app, !length_take. lia. }
  assert (Hval_hq : hq ≠ [] → ∃ a, a ∈ hq ∧ a ∈ json_validation d).
  { intros [a Ha]%drop_floor_elem. exists a. split.
    - by eapply subseteq_drop.
    - rewrite Hva. apply elem_of_app. by left. }
  assert (Hval_mq : mq ≠ [] → ∃ a, a ∈ mq ∧ a ∈ json_validation d).
  { intros [a Ha]%drop_floor_elem. exists a. split.
    - by eapply subseteq_drop.
    - rewrite Hva. apply elem_of_app. by right. }
  split_and!; [done| |done|done|].
  - rewrite Htrain.
    pose proof (Nat.Div0.mul_div_le (length hq * 4) 5).
    pose proof (Nat.Div0.mul_div_le (length mq * 4) 5). lia.
  - intros Hne Hnil.
    destruct hq as [|a hq'] eqn:Ehq.
    + destruct mq as [|b mq'] eqn:Emq.
      * simpl in Hall. by destruct annos.
      * destruct Hval_mq as (x & _ & Hx); [done|].
        rewrite Hnil in Hx. by apply elem_of_nil in Hx.
    + destruct Hval_hq as (x & _ & Hx); [done|].
      rewrite Hnil in Hx. by apply elem_of_nil in Hx.
Qed.

Lemma split_sizes_witness :
  length (json_train (built_dataset lcg_state scenario_fused)) =
    length (json_high_quality (built_dataset lcg_state scenario_fused))
      * 4 / 5 +
    length (json_medium_quality (built_dataset lcg_state scenario_fused))
      * 4 / 5 ∧
  5 * length (json_train (built_dataset lcg_state scenario_fused)) ≤
    4 * length scenario_fused ∧
  (json_high_quality (built_dataset lcg_state scenario_fused) ≠ [] →
     ∃ a, a ∈ json_high_quality (built_dataset lcg_state scenario_fused) ∧
          a ∈ json_validation (built_dataset lcg_state scenario_fused)) ∧
  (json_medium_quality (built_dataset lcg_state scenario_fused) ≠ [] →
     ∃ a, a ∈ json_medium_quality (built_dataset lcg_state scenario_fused) ∧
          a ∈ json_validation (built_dataset lcg_state scenario_fused)) ∧
  (scenario_fused ≠ [] →
     json_validation (built_dataset lcg_state scenario_fused) ≠ []).
Proof.
  apply (split_sizes (BG := lcg_bitgen) lcg_state scenario_fused).
  vm_compute. reflexivity.
Defined.

(** X17: the builder leaves the list objects that exist alone: it adds
    four cells to the heap, one for each list of the dict it returns, all
    distinct, and touches no other cell; the generator it leaves behind is
    the one reached from the seed 42, whatever its state was before. *)
Theorem builder_frame {BG : BitGenerator} (st : pystate)
    (annos : list merged_anno) :
  let '(d, st') := create_training_dataset annos st in
  (∀ x l, heap st !! x = Some l → heap st' !! x = Some l) ∧
  length (heap st') = length (heap st) + 4 ∧
  NoDup [train d; validation d; high_quality d; medium_quality d] ∧
  (∀ x, x ∈ [train d; validation d; high_quality d; medium_quality d] →
        length (heap st) ≤ x < length (heap st')) ∧
  np_random st' = (dataset_of annos).2.
Proof.
  destruct (dataset_of_eq annos)
    as (hq & g1 & mq & g2 & tr & g3 & va & g4 & Hhq & Hmq & Htr & Hva & ->).
  rewrite (create_training_dataset_run st annos _ _ _ _ _ _ _ _
             Hhq Hmq Htr Hva).
  cbn [heap np_random train validation high_quality medium_quality snd].
  split_and!.
  - intros x l Hx. by apply lookup_app_l_Some.
  - rewrite length_app. simpl. lia.
  - repeat (apply NoDup_cons; split;
            [rewrite ?elem_of_cons, ?elem_of_nil; lia|]).
    apply NoDup_nil_2.
  - intros x. rewrite length_app, !elem_of_cons, elem_of_nil. simpl. lia.
  - done.
Qed.

(** X18: the categories of the metadata are exactly the category names of
    the annotations of the training and validation sets. *)
Theorem metadata_categories {BG : BitGenerator} (st : pystate)
    (annos : list merged_anno) (c : string) :
  c ∈ categories (json_metadata (built_dataset st annos)) ↔
  ∃ a, a ∈ json_train (built_dataset st annos) ++
           json_validation (built_dataset st annos) ∧
       ma_category a = c.
Proof.
  rewrite built_dataset_eq.
  pose proof (dataset_of_all annos) as Hall.
  destruct (dataset_of_lists annos) as (_ & _ & _ & _ & _ & _ & ->).
  cbn [categories]. rewrite elem_of_list_to_set, list_elem_of_fmap.
  split.
  - intros (a & -> & Ha). exists a. split; [|done]. by rewrite Hall.
  - intros (a & Ha & <-). exists a. split; [done|]. by rewrite <- Hall.
Qed.
